(** * History service and models of the water-network dashboard

    A shallow embedding of [src/js/services/historyService.js] (the
    [HistoryService] object) and of [src/js/models.js] (the classes
    [Tank], [Valve] and [Pipeline]) together with the part of the
    JavaScript platform they call, and the properties of their functions.

    Conventions of the embedding.
    - A JavaScript number is an exact rational ([Q]); arithmetic is exact,
      the rounding of IEEE doubles is not modelled, and [String(x)] writes
      the number in positional notation.  [NaN] only arises when a stored
      value is read as a number and is written [None]; an infinity has no
      counterpart.
    - [undefined] is the [None] of [option value]; a property whose value is
      [undefined] is an absent key of the object, and so is, in an instance
      of a model, a property whose value is [NaN].
    - An object is a finite map from property names to values.  A reading
      and a tank are records: their numeric properties are numbers or
      absent, as the data model of the service has them.  An instance of a
      model is the object of its properties.
    - The store is the map of the children of every node, with the calls
      that fail.  The writes of a call reach it in the order of their issue.
    - [Date.now()] and [Math.random()] are arguments: functions of the turn
      of the loop, or of the call, in which they are read.
    - What depends on the host (the reading of a string as a number or as a
      date, the formats of a locale) is a variable of the section that uses
      it.
    - Logging, the toast and the download of the export, the read that
      only logs the number of entries after a synchronisation, and the
      [info] methods of the models have no counterpart. *)

From Stdlib Require Import ZArith QArith Qround Qabs String Ascii List Sorted Lia.
From stdpp Require Import base option list gmap sets strings pretty.

Local Open Scope Z_scope.

(** ** Numbers *)

Module Num.

Definition ltb (a b : Q) : bool :=
  (Qnum a * Zpos (Qden b) <? Qnum b * Zpos (Qden a))%Z.

Definition leb (a b : Q) : bool :=
  (Qnum a * Zpos (Qden b) <=? Qnum b * Zpos (Qden a))%Z.

Definition eqb (a b : Q) : bool :=
  (Qnum a * Zpos (Qden b) =? Qnum b * Zpos (Qden a))%Z.

Definition of_Z (z : Z) : Q := inject_Z z.

Definition add (a b : Q) : Q := Qred (a + b).
Definition sub (a b : Q) : Q := Qred (a - b).
Definition mul (a b : Q) : Q := Qred (a * b).

(** [a / b] for a divisor that is not zero; JavaScript's result for a zero
    divisor is an infinity or [NaN], which is [None] here. *)
Definition div (a b : Q) : option Q :=
  if eqb b 0 then None else Some (Qred (a / b)).

Definition min (a b : Q) : Q := if ltb b a then b else a.
Definition max (a b : Q) : Q := if ltb a b then b else a.

(** [Math.round]: the nearest integer, ties towards plus infinity. *)
Definition round (a : Q) : Z := Qfloor (a + (1 # 2)).

(** [ToIntegerOrInfinity] on a finite number: truncation towards zero. *)
Definition trunc (a : Q) : Z := Z.quot (Qnum a) (Zpos (Qden a)).

(** [Math.PI], the double nearest to pi, as the rational it denotes. *)
Definition PI : Q := 884279719003555 # 281474976710656.

End Num.

(** ** Text *)

Module Text.

Definition dquote : ascii := "034"%char.
Definition dot : ascii := "."%char.

(** [s.replace(/c/g, by)]: every occurrence of the character [c]. *)
Fixpoint replaceAll (c : ascii) (by_ : string) (s : string) : string :=
  match s with
  | EmptyString => EmptyString
  | String a rest =>
      if Ascii.eqb a c then by_ +:+ replaceAll c by_ rest
      else String a (replaceAll c by_ rest)
  end.

Fixpoint contains (c : ascii) (s : string) : bool :=
  match s with
  | EmptyString => false
  | String a rest => Ascii.eqb a c || contains c rest
  end.

(** [parts.join(sep)] on strings. *)
Fixpoint join (sep : string) (parts : list string) : string :=
  match parts with
  | [] => EmptyString
  | [p] => p
  | p :: rest => p +:+ sep +:+ join sep rest
  end.

Fixpoint zeros (n : nat) : string :=
  match n with O => EmptyString | S k => String "0" (zeros k) end.

(** Left padding with zeros up to [width] characters. *)
Definition pad0 (width : nat) (s : string) : string :=
  zeros (width - String.length s) +:+ s.

Definition digit (d : Z) : ascii := ascii_of_nat (48 + Z.to_nat d).

(** The decimal digits of the fraction [r / d], [0 <= r < d], until it
    terminates; [fuel] bounds the number of digits. *)
Fixpoint fraction (fuel : nat) (r d : Z) : string :=
  match fuel with
  | O => EmptyString
  | S k =>
      if r =? 0 then EmptyString
      else String (digit (r * 10 / d)) (fraction k (r * 10 mod d) d)
  end.

(** [String(x)] for a number, in positional notation, which JavaScript
    uses from 1e-6 up to 1e21: the integer part, then the digits of the
    fraction when there is one. *)
Definition ofNumber (x : Q) : string :=
  let n := Z.abs (Qnum x) in
  let d := Zpos (Qden x) in
  let frac := fraction 24 (n mod d) d in
  (if Qnum x <? 0 then "-" else EmptyString)
    +:+ pretty (n / d)
    +:+ (match frac with EmptyString => EmptyString | _ => String dot frac end).

(** [x.toFixed(f)] for [|x|] below 1e21: [n / 10^f] closest to [|x|], the
    larger [n] on a tie. *)
Definition toFixed (x : Q) (f : nat) : string :=
  let scale := 10 ^ Z.of_nat f in
  let n := Qfloor (Qabs x * inject_Z scale + (1 # 2)) in
  (if Qnum x <? 0 then "-" else EmptyString)
    +:+ pretty (n / scale)
    +:+ (match f with
         | O => EmptyString
         | _ => String dot (pad0 f (pretty (n mod scale)))
         end).

End Text.

(** ** Dates *)

Module Date.

Definition msPerDay : Z := 86400000.

(** The largest time value of a [Date]; beyond it the date is invalid. *)
Definition maxTime : Z := 8640000000000000.

(** [new Date(x)] for a number: the time value, [None] for an invalid
    date. *)
Definition timeValue (x : Q) : option Z :=
  if Num.leb (Qabs x) (inject_Z maxTime) then Some (Num.trunc x) else None.

(** Year, month and day of a day number counted from 1970-01-01, in the
    proleptic Gregorian calendar. *)
Definition civil (days : Z) : Z * Z * Z :=
  let z := days + 719468 in
  let era := z / 146097 in
  let doe := z mod 146097 in
  let yoe := (doe - doe / 1460 + doe / 36524 - doe / 146096) / 365 in
  let doy := doe - (365 * yoe + yoe / 4 - yoe / 100) in
  let mp := (5 * doy + 2) / 153 in
  let d := doy - (153 * mp + 2) / 5 + 1 in
  let m := if mp <? 10 then mp + 3 else mp - 9 in
  let y := yoe + era * 400 + (if m <=? 2 then 1 else 0) in
  (y, m, d).

Definition two (n : Z) : string := Text.pad0 2 (pretty n).

Definition year (y : Z) : string :=
  if (0 <=? y) && (y <=? 9999) then Text.pad0 4 (pretty y)
  else (if y <? 0 then "-" else "+") +:+ Text.pad0 6 (pretty (Z.abs y)).

Definition iso (t : Z) : string :=
  let '(y, m, d) := civil (t / msPerDay) in
  let ms := t mod msPerDay in
  year y +:+ "-" +:+ two m +:+ "-" +:+ two d +:+ "T"
    +:+ two (ms / 3600000) +:+ ":" +:+ two (ms / 60000 mod 60) +:+ ":"
    +:+ two (ms / 1000 mod 60) +:+ "." +:+ Text.pad0 3 (pretty (ms mod 1000))
    +:+ "Z".

(** [new Date(x).toISOString()]; [None] is the [RangeError] thrown for an
    invalid date. *)
Definition toISOString (x : Q) : option string := iso <$> timeValue x.

End Date.

(** ** Values and objects *)

#[warnings="-register-all"]
Inductive value : Type :=
  | VNull
  | VBool (b : bool)
  | VNum (x : Q)
  | VStr (s : string)
  | VArr (items : list value)
  | VObj (props : list (string * value)).

(** A top-level object: a reading, a history entry. *)
Abbreviation obj := (gmap string value).

(** Truthiness of a value, [None] being [undefined]. *)
Definition truthy (v : option value) : bool :=
  match v with
  | None | Some VNull => false
  | Some (VBool b) => b
  | Some (VNum x) => negb (Num.eqb x 0)
  | Some (VStr s) => match s with EmptyString => false | _ => true end
  | Some (VArr _) | Some (VObj _) => true
  end.

(** [a || b]. *)
Definition or_else (a b : option value) : option value :=
  if truthy a then a else b.

Infix "|||" := or_else (at level 50, left associativity).

(** [String(v)], also the conversion of a template literal. *)
Fixpoint toString (v : value) : string :=
  match v with
  | VNull => "null"
  | VBool true => "true"
  | VBool false => "false"
  | VNum x => Text.ofNumber x
  | VStr s => s
  | VArr items =>
      Text.join ","
        (map (fun i => match i with VNull => EmptyString | _ => toString i end)
           items)
  | VObj _ => "[object Object]"
  end.

Definition String_ (v : option value) : string :=
  match v with None => "undefined" | Some v => toString v end.

Definition num (x : Q) : option value := Some (VNum x).
Definition str (s : string) : option value := Some (VStr s).

(** The property [k: v] of an object literal, and the assignment
    [o.k = v]. *)
Definition setProp (k : string) (v : option value) (o : obj) : obj :=
  match v with Some x => <[k := x]> o | None => delete k o end.

(** ** HistoryService *)

Module HistoryService.

Definition year2000InMs : Q := 946684800000.
Definition year2000InSeconds : Q := 946684800.

(** [generateHistoryKey(originalTimestamp, distance)]; [now] is the value
    of [Date.now()]. *)
Definition generateHistoryKey (now : Z)
    (originalTimestamp distance : option value) : string :=
  let ts := String_ (originalTimestamp ||| num (Num.of_Z now)) in
  let dist := Text.replaceAll Text.dot "_" (String_ (distance ||| num 0)) in
  ts +:+ "_" +:+ dist.

(** [normalizeTimestamp(timestamp)] on a number or an absent argument;
    [None] as a result is [null]. *)
Definition normalizeTimestamp (timestamp : option Q) : option Q :=
  match timestamp with
  | None => None
  | Some timestamp =>
      if Num.eqb timestamp 0 then None
      else if Num.ltb timestamp 1000000 then None
      else if Num.leb 1000000 timestamp
              && Num.ltb timestamp year2000InSeconds then
        let converted := Num.mul timestamp 1000 in
        if Num.leb year2000InMs converted then Some converted else None
      else if Num.leb year2000InMs timestamp then Some timestamp
      else None
  end.

(** *** Readings, tanks and the store *)

(** A raw reading: [timestamp] and [distance] are numbers or absent, the
    other properties are arbitrary. *)
Module Reading.
Record t := make
  { timestamp : option Q; distance : option Q; others : obj }.

(** The own properties of the reading, as [...reading] copies them:
    [timestamp] and [distance] are the two fields, whatever [others]
    holds under these names. *)
Definition props (r : t) : obj :=
  setProp "timestamp" (VNum <$> timestamp r)
    (setProp "distance" (VNum <$> distance r) (others r)).
End Reading.

(** The geometry of a tank, every dimension a number or absent. *)
Module Tank.
Record t := make
  { shape : option string;
    diameter : option Q;
    length : option Q;
    breadth : option Q;
    height : option Q;
    sensorHeight : option Q;
    capacity : option Q }.
End Tank.

(** [x || d] for a number or absent [x]. *)
Definition numOr (x : option Q) (d : Q) : Q :=
  match x with
  | Some v => if Num.eqb v 0 then d else v
  | None => d
  end.

(** Truthiness of a number or absent [x]. *)
Definition numTruthy (x : option Q) : bool :=
  match x with Some v => negb (Num.eqb v 0) | None => false end.

(** The store: the children of every node, and which calls fail.  A
    [get] of a path in [getThrows] throws; a [set] of a path in
    [setRejects] returns a promise that is rejected. *)
Record Store := mkStore
  { data : gmap string (gmap string obj);
    getThrows : string -> bool;
    setRejects : string -> bool }.

Definition historyPath (deviceType deviceId : string) : string :=
  "history/" +:+ deviceType +:+ "/" +:+ deviceId.

(** [get(ref(db, path))]: [None] when the call throws, otherwise the
    snapshot, whose value is absent when nothing is stored at [path]. *)
Definition get (st : Store) (path : string)
    : option (option (gmap string obj)) :=
  if getThrows st path then None else Some (data st !! path).

(** [set(ref(db, node/key), entry)]: the store after the call and
    whether the promise is fulfilled. *)
Definition set (st : Store) (node key : string) (entry : obj)
    : Store * bool :=
  if setRejects st (node +:+ "/" +:+ key) then (st, false)
  else
    (mkStore
       (<[node := <[key := entry]> (default ∅ (data st !! node))]> (data st))
       (getThrows st) (setRejects st),
     true).

(** [getHistoryRaw(deviceId, deviceType)]. *)
Definition getHistoryRaw (st : Store) (deviceId deviceType : string)
    : list obj :=
  match get st (historyPath deviceType deviceId) with
  | None => []
  | Some None => []
  | Some (Some rawData) => (map_to_list rawData).*2
  end.

(** *** Sorting *)

(** [Array.prototype.sort] with a comparator, as the stable insertion
    sort: an element stays ahead of the later ones it does not compare
    greater than. *)
Section Sort.
Context {A : Type} (gt : A -> A -> bool).

Fixpoint insert (x : A) (l : list A) : list A :=
  match l with
  | [] => [x]
  | y :: rest => if gt x y then y :: insert x rest else x :: y :: rest
  end.

Definition sort (l : list A) : list A := foldr insert [] l.
End Sort.

(** *** syncDeviceReadingsToHistory *)

Record SyncResult := mkResult
  { synced : nat; skipped : nat; error : option string }.

(** The key under which an existing entry counts as already stored. *)
Definition existingKey (h : obj) : string :=
  let ts :=
    String_ (h !! "originalTimestamp" ||| h !! "deviceTimestamp"
             ||| h !! "timestamp" ||| str EmptyString) in
  let dist := String_ (h !! "distance" ||| str EmptyString) in
  ts +:+ "_" +:+ dist.

(** The derived metrics of a reading at [distance] in [tank]. *)
Definition waterLevelOf (tank : Tank.t) (distance : Q) : Q :=
  let sensorHeight :=
    numOr (Tank.sensorHeight tank) (numOr (Tank.height tank) 10) in
  Num.max 0 (Num.min sensorHeight (Num.sub sensorHeight distance)).

(** [currentVolume] before rounding; [None] is a quotient that is not a
    finite number. *)
Definition volumeOf (tank : Tank.t) (waterLevel : Q) : option Q :=
  if bool_decide (Tank.shape tank = Some "cylinder")
     && numTruthy (Tank.diameter tank) then
    let radius := Num.mul (default 0%Q (Tank.diameter tank)) (1 # 2) in
    Some (Num.mul (Num.mul (Num.mul Num.PI (Num.mul radius radius))
                     waterLevel) 1000)
  else if bool_decide (Tank.shape tank = Some "cuboid")
          && numTruthy (Tank.length tank)
          && numTruthy (Tank.breadth tank) then
    Some (Num.mul (Num.mul (Num.mul (default 0%Q (Tank.length tank))
                              (default 0%Q (Tank.breadth tank)))
                     waterLevel) 1000)
  else
    let maxCapacity := numOr (Tank.capacity tank) 20000 in
    let maxHeight := numOr (Tank.height tank) 10 in
    (fun ratio => Num.mul ratio maxCapacity)
      <$> Num.div waterLevel maxHeight.

Definition withTankMetrics (tank : Tank.t) (distance : Q)
    (historyEntry : obj) : obj :=
  let sensorHeight :=
    numOr (Tank.sensorHeight tank) (numOr (Tank.height tank) 10) in
  let waterLevel := waterLevelOf tank distance in
  let currentVolume := volumeOf tank waterLevel in
  setProp "sensorHeight" (num sensorHeight)
    (setProp "height" (VNum <$> Tank.height tank)
    (setProp "breadth" (VNum <$> Tank.breadth tank)
    (setProp "length" (VNum <$> Tank.length tank)
    (setProp "diameter" (VNum <$> Tank.diameter tank)
    (setProp "shape" (VStr <$> Tank.shape tank)
    (setProp "capacity" (num (numOr (Tank.capacity tank) 20000))
    (setProp "currentVolume"
       ((fun v => VNum (Num.of_Z (Num.round v))) <$> currentVolume)
    (setProp "waterLevel" (num waterLevel) historyEntry)))))))).

(** What one turn of the loop over the sorted readings does. *)
Inductive Turn :=
  | Skipped
  | Saved (historyKey : string) (historyEntry : obj)
  | Thrown (message : string).

Section Turn.
Variable now : nat -> Z.
Variable existingKeys : gset string.
Variable tank : option Tank.t.
Variable totalReadings : nat.

(** The timestamp given to a reading whose own one is not usable. *)
Definition assignedTimestamp (index : nat) : Q :=
  let reverseIndex := Z.of_nat totalReadings - 1 - Z.of_nat index in
  let minutesBetweenReadings := 5 in
  let offsetMinutes := reverseIndex * minutesBetweenReadings in
  Num.sub (Num.of_Z (now index)) (Num.of_Z (offsetMinutes * 60 * 1000)).

Definition canonicalTimestamp (index : nat) (rawTimestamp : Q) : Q :=
  match normalizeTimestamp (Some rawTimestamp) with
  | Some normalizedTimestamp =>
      if Num.eqb normalizedTimestamp 0
         || Num.ltb normalizedTimestamp 946684800000
      then assignedTimestamp index
      else normalizedTimestamp
  | None => assignedTimestamp index
  end.

Definition turn (index : nat) (reading : Reading.t) : Turn :=
  let rawTimestamp := numOr (Reading.timestamp reading) 0 in
  let distance := Reading.distance reading in
  if Num.eqb rawTimestamp 0 then Skipped
  else
    let uniqueKey :=
      Text.ofNumber rawTimestamp +:+ "_"
        +:+ Text.ofNumber (numOr distance 0) in
    if bool_decide (uniqueKey ∈ existingKeys) then Skipped
    else
      let normalizedTimestamp := canonicalTimestamp index rawTimestamp in
      match Date.toISOString normalizedTimestamp with
      | None => Thrown "Invalid time value"
      | Some date =>
          let literal : obj :=
            setProp "distance" (VNum <$> distance)
              (setProp "distance_meters" (VNum <$> distance)
              (setProp "distance_cm"
                 (if numTruthy distance
                  then str (Text.toFixed
                              (Num.mul (default 0%Q distance) 100) 1)
                  else Some VNull)
              (setProp "originalTimestamp" (num rawTimestamp)
              (setProp "deviceTimestamp" (num rawTimestamp)
              (setProp "timestamp" (num normalizedTimestamp)
              (setProp "date" (str date) ∅)))))) in
          let historyEntry := Reading.props reading ∪ literal in
          let historyEntry :=
            match tank, distance with
            | Some tank, Some distance =>
                withTankMetrics tank distance historyEntry
            | _, _ => historyEntry
            end in
          let historyKey :=
            generateHistoryKey (now index) (num rawTimestamp)
              (VNum <$> distance) in
          Saved historyKey historyEntry
      end.

(** The loop from [index] on: the exception that ended it, if any, the
    number of readings skipped, and the writes issued, in order. *)
Fixpoint turns (index : nat) (sortedReadings : list Reading.t)
    : option string * nat * list (string * obj) :=
  match sortedReadings with
  | [] => (None, O, [])
  | reading :: rest =>
      match turn index reading with
      | Thrown message => (Some message, O, [])
      | Skipped =>
          let '(thrown, skippedCount, saves) := turns (S index) rest in
          (thrown, S skippedCount, saves)
      | Saved historyKey historyEntry =>
          let '(thrown, skippedCount, saves) := turns (S index) rest in
          (thrown, skippedCount, (historyKey, historyEntry) :: saves)
      end
  end.
End Turn.

(** The writes issued by the loop reach the store one after the other;
    each fulfilled one adds one to [syncedCount]. *)
Fixpoint settle (st : Store) (node : string) (saves : list (string * obj))
    : Store * nat :=
  match saves with
  | [] => (st, O)
  | (historyKey, historyEntry) :: rest =>
      let '(st1, fulfilled) := set st node historyKey historyEntry in
      let '(st2, syncedCount) := settle st1 node rest in
      (st2, if fulfilled then S syncedCount else syncedCount)
  end.

Definition rawOrder (a b : Reading.t) : bool :=
  Num.ltb 0
    (Num.sub (numOr (Reading.timestamp a) 0)
             (numOr (Reading.timestamp b) 0)).

(** [syncDeviceReadingsToHistory(tankId, deviceType, readings, tank)] run
    against the store [st], with [now index] the value of [Date.now()]
    in turn [index] of the loop.  The result and the store afterwards.
    A write issued before an exception still reaches the store. *)
Definition syncDeviceReadingsToHistory (now : nat -> Z) (st : Store)
    (tankId deviceType : string) (readings : list Reading.t)
    (tank : option Tank.t) : SyncResult * Store :=
  match readings with
  | [] => (mkResult 0 0 None, st)
  | _ =>
      let existingHistory := getHistoryRaw st tankId deviceType in
      let existingKeys : gset string :=
        list_to_set (existingKey <$> existingHistory) in
      let sortedReadings := sort rawOrder readings in
      let '(thrown, skippedCount, saves) :=
        turns now existingKeys tank (List.length sortedReadings)
          O sortedReadings in
      let '(st', syncedCount) :=
        settle st (historyPath deviceType tankId) saves in
      match thrown with
      | Some message => (mkResult 0 0 (Some message), st')
      | None => (mkResult syncedCount skippedCount None, st')
      end
  end.

(** *** getHistory *)

(** [startDate] and [endDate]: a [Date] object, whose time value is
    absent when the date is invalid, or the text of a day. *)
Inductive DateArg :=
  | ADate (time : option Q)
  | AText (text : string).

Definition given (d : option DateArg) : bool :=
  match d with
  | None => false
  | Some (ADate _) => true
  | Some (AText text) => truthy (str text)
  end.

(** Comparisons of numbers one of which may be [NaN]. *)
Definition gtN (a b : option Q) : bool :=
  match a, b with Some x, Some y => Num.ltb y x | _, _ => false end.
Definition ltN (a b : option Q) : bool := gtN b a.
Definition geN (a b : option Q) : bool :=
  match a, b with Some x, Some y => Num.leb y x | _, _ => false end.
Definition leN (a b : option Q) : bool := geN b a.
Definition subN (a b : option Q) : option Q :=
  match a, b with Some x, Some y => Some (Num.sub x y) | _, _ => None end.

Section Host.
(** The host's conversion of a string to a number, [None] being [NaN]. *)
Variable StringToNumber : string -> option Q.
(** [new Date(text).getTime()] in the time zone of the host. *)
Variable parseDate : string -> option Q.

(** [Number(v)]. *)
Definition toNumber (v : option value) : option Q :=
  match v with
  | None => None
  | Some VNull => Some 0%Q
  | Some (VBool b) => Some (if b then 1%Q else 0%Q)
  | Some (VNum x) => Some x
  | Some (VStr s) => StringToNumber s
  | Some (VArr items) => StringToNumber (toString (VArr items))
  | Some (VObj props) => StringToNumber (toString (VObj props))
  end.

(** A stored value as the argument of [normalizeTimestamp]: a falsy
    value is rejected by its first test whatever number it reads as. *)
Definition timestampOf (v : option value) : option Q :=
  if truthy v then toNumber v else None.

(** The entry with its effective [timestamp] and its [sortKey];
    [now] is the value of [Date.now()].  A timestamp that
    [normalizeTimestamp] accepts is kept as the number it reads as. *)
Definition effective (now : Z) (h : obj) : obj :=
  let normalizedTs : option value :=
    VNum <$> normalizeTimestamp
               (timestampOf (h !! "timestamp" ||| h !! "originalTimestamp"
                             ||| h !! "deviceTimestamp")) in
  let normalizedTs :=
    if negb (truthy normalizedTs)
       || ltN (toNumber normalizedTs) (Some 946684800000%Q) then
      if truthy (h !! "timestamp")
         && gtN (toNumber (h !! "timestamp")) (Some 946684800000%Q)
      then h !! "timestamp"
      else h !! "timestamp" ||| num (Num.of_Z now)
    else normalizedTs in
  setProp "sortKey"
    (h !! "originalTimestamp" ||| h !! "deviceTimestamp"
     ||| h !! "timestamp" ||| num 0)
    (setProp "timestamp" normalizedTs h).

Definition startTimeOf (startDate : option DateArg) : option Q :=
  match startDate with
  | Some (ADate time) => time
  | Some (AText text) => parseDate (text +:+ "T00:00:00")
  | None => None
  end.

Definition endTimeOf (endDate : option DateArg) : option Q :=
  match endDate with
  | Some (ADate time) => (fun t => Num.add t 86400000) <$> time
  | Some (AText text) => parseDate (text +:+ "T23:59:59")
  | None => None
  end.

(** The comparator of the final sort is positive. *)
Definition newestFirst (a b : obj) : bool :=
  if truthy (a !! "sortKey") && truthy (b !! "sortKey")
     && ltN (toNumber (a !! "sortKey")) (Some 1000000%Q)
     && ltN (toNumber (b !! "sortKey")) (Some 1000000%Q)
  then gtN (subN (toNumber (b !! "sortKey")) (toNumber (a !! "sortKey")))
         (Some 0%Q)
  else gtN (subN (toNumber (b !! "timestamp"))
              (toNumber (a !! "timestamp")))
         (Some 0%Q).

(** The entries after normalisation, in the order of the snapshot. *)
Definition normalized (now : nat -> Z) (rawData : gmap string obj)
    : list obj :=
  List.filter (fun h => truthy (h !! "timestamp"))
    (imap (fun i h => effective (now i) h) (map_to_list rawData).*2).

Definition hasValidTimestamps (history : list obj) : bool :=
  existsb
    (fun h => gtN (toNumber (h !! "timestamp")) (Some 946684800000%Q))
    history.

(** The date-range filter. *)
Definition dateFiltered (startDate endDate : option DateArg)
    (history : list obj) : list obj :=
  if hasValidTimestamps history then
    let history :=
      if given startDate then
        let startTime := startTimeOf startDate in
        List.filter
          (fun h => geN (toNumber (h !! "timestamp")) startTime) history
      else history in
    if given endDate then
      let endTime := endTimeOf endDate in
      List.filter
        (fun h => leN (toNumber (h !! "timestamp")) endTime) history
    else history
  else history.

(** [getHistory(deviceId, deviceType, startDate, endDate)], with
    [now i] the value of [Date.now()] at the [i]-th entry. *)
Definition getHistory (now : nat -> Z) (st : Store)
    (deviceId deviceType : string) (startDate endDate : option DateArg)
    : list obj :=
  match get st (historyPath deviceType deviceId) with
  | None => []
  | Some None => []
  | Some (Some rawData) =>
      sort newestFirst
        (dateFiltered startDate endDate (normalized now rawData))
  end.

End Host.

(** *** exportToCSV *)


(** A property of a value that is an element of an array; reading a
    property of [null] throws. *)
Fixpoint assoc (k : string) (props : list (string * value))
    : option value :=
  match props with
  | [] => None
  | (k', v) :: rest => if String.eqb k k' then Some v else assoc k rest
  end.

Definition prop (v : value) (k : string) : option (option value) :=
  match v with
  | VNull => None
  | VObj props => Some (assoc k props)
  | _ => Some None
  end.

(** [items.map(f)] for an [f] that may throw. *)
Fixpoint mapM {A B : Type} (f : A -> option B) (l : list A)
    : option (list B) :=
  match l with
  | [] => Some []
  | x :: rest =>
      match f x, mapM f rest with
      | Some y, Some ys => Some (y :: ys)
      | _, _ => None
      end
  end.

(** An element of an array as [join] writes it. *)
Definition joined (v : option value) : string :=
  match v with None | Some VNull => EmptyString | Some v => toString v end.

Definition quote : string := String Text.dquote EmptyString.

Section Rows.
Variable StringToNumber : string -> option Q.
(** [new Date(v).toLocaleDateString('en-IN')], [toLocaleTimeString] and
    [toLocaleString()] of the host. *)
Variable toLocaleDateString : value -> string.
Variable toLocaleTimeString : value -> string.
Variable toLocaleString : value -> string.

Definition safeNumber (v : option value) (decimals : nat) : string :=
  match v with
  | None | Some VNull => EmptyString
  | _ =>
      match toNumber StringToNumber v with
      | None => EmptyString
      | Some x => Text.toFixed x decimals
      end
  end.


Definition valveStatesStr (h : obj) : option string :=
  if truthy (h !! "valveStates") then
    match h !! "valveStates" with
    | Some (VArr items) =>
        Text.join "; " <$>
          mapM (fun v =>
                  match prop v "name", prop v "state" with
                  | Some name, Some state =>
                      Some (String_ name +:+ ":" +:+ String_ state)
                  | _, _ => None
                  end) items
    | _ => None
    end
  else Some "No data".

(** The row of an entry in the schema of the tanks; [None] when the
    mapper throws. *)
Definition tanksRow (now : Z) (h : obj) : option (list string) :=
  let dateObj :=
    default VNull (h !! "timestamp" ||| num (Num.of_Z now)) in
  let dateStr := toLocaleDateString dateObj in
  let timeStr := toLocaleTimeString dateObj in
  match valveStatesStr h with
  | None => None
  | Some valveStatesStr =>
      Some [ dateStr;
             timeStr;
             safeNumber (h !! "distance") 3;
             safeNumber (h !! "distance_cm") 1;
             safeNumber (h !! "waterLevel") 2;
             safeNumber (h !! "currentVolume") 0;
             safeNumber (h !! "mainFlowRate") 2;
             joined (h !! "householdSupply" ||| num 0);
             safeNumber (h !! "pressureChange") 1;
             quote +:+ valveStatesStr +:+ quote ]
  end.


(** The row of an entry in the other schema. *)
Definition valveRow (now : Z) (h : obj) : option (list string) :=
  match h !! "changes" ||| str "No changes" with
  | Some (VStr changes) =>
      Some [ joined (h !! "timestamp" ||| str EmptyString);
             joined
               (h !! "date"
                ||| str (toLocaleString
                           (default VNull
                              (h !! "timestamp" ||| num (Num.of_Z now)))));
             joined (h !! "valveState" ||| str "unknown");
             (if truthy (h !! "active") then "CLOSED" else "OPEN");
             safeNumber (h !! "supplyFlow") 2;
             safeNumber (h !! "avgSupplyPerHousehold") 2;
             joined (h !! "households" ||| str EmptyString);
             joined (h !! "householdsServed" ||| num 0);
             safeNumber (h !! "battery") 0;
             safeNumber (h !! "pressure") 1;
             quote
               +:+ Text.replaceAll Text.dquote (quote +:+ quote) changes
               +:+ quote ]
  | _ => None
  end.



End Rows.

(** *** saveDataPoint *)

Section Save.
(** [new Date(text).getTime()] of the host, [None] for an invalid date. *)
Variable parseDate : string -> option Q.

(** The time value of [new Date(v)]: a string is parsed, an array or an
    object is parsed as the string it converts to, any other value is read
    as a number. *)
Definition dateOf (v : value) : option Z :=
  match v with
  | VNum x => Date.timeValue x
  | VBool b => Date.timeValue (if b then 1 else 0)
  | VNull => Date.timeValue 0
  | VStr s => parseDate s ≫= Date.timeValue
  | VArr _ | VObj _ => parseDate (toString v) ≫= Date.timeValue
  end.

(** [saveDataPoint(deviceId, deviceType, data)]: what it returns and the
    store afterwards; [now] is the value of [Date.now()].  The key is
    taken to be one segment of the path, which [ref] accepts. *)
Definition saveDataPoint (now : Z) (st : Store)
    (deviceId deviceType : string) (data : obj) : bool * Store :=
  let timestamp :=
    default VNull
      (data !! "timestamp" ||| data !! "deviceTimestamp"
       ||| num (Num.of_Z now)) in
  match Date.iso <$> dateOf timestamp with
  | None => (false, st)
  | Some date =>
      let entry : obj :=
        data ∪ setProp "timestamp" (Some timestamp)
                 (setProp "date" (str date) ∅) in
      let '(st', fulfilled) :=
        set st (historyPath deviceType deviceId) (toString timestamp)
          entry in
      (fulfilled, st')
  end.

End Save.

End HistoryService.

(** ** The models of [src/js/models.js] *)

Module Models.

(** An object literal, a later property replacing an earlier one of the
    same name.  A property whose value is [undefined] or [NaN] is not
    kept: both are absent from an object here. *)
Definition object (props : list (string * option value)) : obj :=
  foldl (fun o kv => setProp kv.1 kv.2 o) ∅ props.

(** [v === s] for a string [s]. *)
Definition isString (v : option value) (s : string) : bool :=
  match v with Some (VStr s') => String.eqb s' s | _ => false end.

(** Arithmetic on numbers that may be [NaN]; a quotient by zero is not a
    finite number and is [None] too. *)
Definition mulN (a b : option Q) : option Q :=
  match a, b with Some x, Some y => Some (Num.mul x y) | _, _ => None end.

Definition divN (a b : option Q) : option Q :=
  match a, b with Some x, Some y => Num.div x y | _, _ => None end.

Definition minN (a b : option Q) : option Q :=
  match a, b with Some x, Some y => Some (Num.min x y) | _, _ => None end.

Definition maxN (a b : option Q) : option Q :=
  match a, b with Some x, Some y => Some (Num.max x y) | _, _ => None end.

Section Parse.
(** [parseFloat] and [parseInt] of the host on a string, [None] being
    [NaN]. *)
Variable parseFloatText : string -> option Q.
Variable parseIntText : string -> option Q.

(** [parseFloat(v)]: a number gives itself; a string, and an array through
    its text, are parsed; [undefined], [null], a boolean and an object
    give [NaN]. *)
Definition parseFloat (v : option value) : option Q :=
  match v with
  | Some (VNum x) => Some x
  | Some (VStr s) => parseFloatText s
  | Some (VArr items) => parseFloatText (toString (VArr items))
  | _ => None
  end.

(** [parseInt(v)]: what the host reads in the text of [v]. *)
Definition parseInt (v : option value) : option Q :=
  match v with
  | Some (VNum x) => parseIntText (toString (VNum x))
  | Some (VStr s) => parseIntText s
  | Some (VArr items) => parseIntText (toString (VArr items))
  | _ => None
  end.
End Parse.

(** *** Tank *)

Module Tank.
Section Host.
Variable parseFloatText : string -> option Q.
Variable StringToNumber : string -> option Q.

(** The properties the constructor assigns; [now] is the value of
    [Date.now()]. *)
Definition assigned (now : Z) (data : obj) : list (string * option value) :=
  let number k := parseFloat parseFloatText (data !! k) in
  [ ("id", data !! "id");
    ("name", data !! "name" ||| str "Tank");
    ("lat", VNum <$> number "lat");
    ("lng", VNum <$> number "lng");
    ("type", data !! "type" ||| str "OHSR");
    ("capacity", num (HistoryService.numOr (number "capacity") 20000));
    ("waterLevel",
     num (HistoryService.numOr (number "waterLevel") (17 # 2)));
    ("shape",
     data !! "shape"
     ||| str (if isString (data !! "type") "GSR" then "cuboid"
              else "cylinder"));
    ("diameter", num (HistoryService.numOr (number "diameter") 10));
    ("height", num (HistoryService.numOr (number "height") 10));
    ("length", num (HistoryService.numOr (number "length") 10));
    ("breadth", num (HistoryService.numOr (number "breadth") 10));
    ("state", data !! "state" ||| str "Telangana");
    ("district", data !! "district" ||| str "Mulugu");
    ("mandal", data !! "mandal" ||| str "Eturunagaram");
    ("habitation", data !! "habitation" ||| str "Ellishettypalle");
    ("connectedMainValves",
     data !! "connectedMainValves" ||| Some (VArr []));
    ("deviceId", data !! "deviceId" ||| Some VNull);
    ("sensorHeight",
     num (HistoryService.numOr (number "sensorHeight")
            (HistoryService.numOr (number "height") 10)));
    ("status", data !! "status" ||| str "active");
    ("pressure", data !! "pressure" ||| Some VNull);
    ("flowRate", data !! "flowRate" ||| Some VNull);
    ("pH", data !! "pH" ||| Some VNull);
    ("temperature", data !! "temperature" ||| Some VNull);
    ("lastUpdate", data !! "lastUpdate" ||| num (Num.of_Z now)) ].

(** [new Tank(data)]. *)
Definition new (now : Z) (data : obj) : obj :=
  let this := object (assigned now data) in
  match this !! "connectedMainValves" with
  | Some (VArr _) => this
  | _ => setProp "connectedMainValves" (Some (VArr [])) this
  end.

(** A property of the tank as an operand of arithmetic. *)
Definition number (this : obj) (k : string) : option Q :=
  HistoryService.toNumber StringToNumber (this !! k).

Definition calculateCurrentVolume (this : obj) : option Q :=
  if isString (this !! "shape") "cylinder" then
    let radius := divN (number this "diameter") (Some 2%Q) in
    mulN (mulN (Some Num.PI) (mulN radius radius))
      (number this "waterLevel")
  else if isString (this !! "shape") "cuboid" then
    mulN (mulN (number this "length") (number this "breadth"))
      (number this "waterLevel")
  else
    mulN (divN (number this "waterLevel") (number this "height"))
      (number this "capacity").

(** [calculateMaxCapacity()]; the last branch answers the property as it
    is. *)
Definition calculateMaxCapacity (this : obj) : option value :=
  if isString (this !! "shape") "cylinder" then
    let radius := divN (number this "diameter") (Some 2%Q) in
    VNum <$> mulN (mulN (mulN (Some Num.PI) (mulN radius radius))
                     (number this "height")) (Some 1000%Q)
  else if isString (this !! "shape") "cuboid" then
    VNum <$> mulN (mulN (mulN (number this "length")
                           (number this "breadth"))
                     (number this "height")) (Some 1000%Q)
  else this !! "capacity".

(** [calculateWaterLevelFromDistance(distanceMeters)], the distance being
    a number, or absent for [null] and [undefined]. *)
Definition calculateWaterLevelFromDistance (this : obj)
    (distanceMeters : option Q) : option value :=
  match distanceMeters with
  | None => this !! "waterLevel"
  | Some distance =>
      let sensorHeight :=
        HistoryService.toNumber StringToNumber
          (this !! "sensorHeight" ||| this !! "height") in
      let calculatedLevel :=
        maxN (Some 0%Q)
          (minN sensorHeight
             (HistoryService.subN sensorHeight (Some distance))) in
      VNum <$> calculatedLevel
  end.

Definition setWaterLevel (now : Z) (this : obj) (level : option value)
    : obj :=
  setProp "lastUpdate" (num (Num.of_Z now))
    (setProp "waterLevel" (VNum <$> parseFloat parseFloatText level) this).

(** [update(data)]: the properties of [data] are assigned to the tank. *)
Definition update (this data : obj) : obj := data ∪ this.

Definition toFirebase (this : obj) : obj :=
  let data : obj :=
    object
      [ ("id", this !! "id");
        ("name", this !! "name");
        ("lat", this !! "lat");
        ("lng", this !! "lng");
        ("type", this !! "type");
        ("capacity", this !! "capacity");
        ("waterLevel", this !! "waterLevel");
        ("shape", this !! "shape");
        ("height", this !! "height");
        ("state", this !! "state");
        ("district", this !! "district");
        ("mandal", this !! "mandal");
        ("habitation", this !! "habitation");
        ("connectedMainValves", this !! "connectedMainValves");
        ("deviceId", this !! "deviceId");
        ("sensorHeight", this !! "sensorHeight");
        ("status", this !! "status");
        ("pressure", this !! "pressure");
        ("flowRate", this !! "flowRate");
        ("pH", this !! "pH");
        ("temperature", this !! "temperature");
        ("lastUpdate", this !! "lastUpdate") ] in
  if isString (this !! "shape") "cylinder"
     && bool_decide (is_Some (this !! "diameter")) then
    setProp "diameter" (this !! "diameter") data
  else if isString (this !! "shape") "cuboid" then
    let data :=
      if bool_decide (is_Some (this !! "length"))
      then setProp "length" (this !! "length") data else data in
    if bool_decide (is_Some (this !! "breadth"))
    then setProp "breadth" (this !! "breadth") data else data
  else data.

End Host.
End Tank.

(** *** Valve *)

Module Valve.

(** The battery and the pressure drawn from [Math.random()]. *)
Definition liveBattery (r : Q) : string :=
  Text.toFixed (Num.add (Num.mul r 30) 70) 0.

Definition livePressure (r : Q) : string :=
  Text.toFixed (Num.add (Num.mul r 10) 15) 1.

Section Host.
Variable parseFloatText : string -> option Q.
Variable parseIntText : string -> option Q.

(** [new Valve(data)]; [random k] is the value of the [k]-th call of
    [Math.random()], which is called only for a default that is used. *)
Definition new (now : Z) (random : nat -> Q) (data : obj) : obj :=
  let calls := if truthy (data !! "battery") then O else 1%nat in
  object
    [ ("id", data !! "id");
      ("name", data !! "name" ||| str "Valve");
      ("lat", VNum <$> parseFloat parseFloatText (data !! "lat"));
      ("lng", VNum <$> parseFloat parseFloatText (data !! "lng"));
      ("type", data !! "type" ||| str "STRAIGHT");
      ("category", data !! "category" ||| str "main");
      ("parentValveId", data !! "parentValveId" ||| Some VNull);
      ("households",
       num (HistoryService.numOr
              (parseInt parseIntText (data !! "households")) 0));
      ("flowRate",
       num (HistoryService.numOr
              (parseFloat parseFloatText (data !! "flowRate")) 50));
      ("flowDirection", data !! "flowDirection" ||| str "straight");
      ("valveState", data !! "valveState" ||| str "open");
      ("active", data !! "active" ||| Some (VBool false));
      ("status", data !! "status" ||| str "active");
      ("mandal", data !! "mandal" ||| str "Eturunagaram");
      ("habitation", data !! "habitation" ||| str "Ellishettypalle");
      ("battery", data !! "battery" ||| str (liveBattery (random O)));
      ("pressure",
       data !! "pressure" ||| str (livePressure (random calls)));
      ("lastUpdate", data !! "lastUpdate" ||| num (Num.of_Z now)) ].
End Host.

Definition generateLiveData (now : Z) (random : nat -> Q) (this : obj)
    : obj :=
  setProp "lastUpdate" (num (Num.of_Z now))
    (setProp "pressure" (str (livePressure (random 1%nat)))
    (setProp "battery" (str (liveBattery (random O))) this)).

Definition toggle (this : obj) : obj :=
  let active := negb (truthy (this !! "active")) in
  setProp "valveState" (str (if active then "closed" else "open"))
    (setProp "active" (Some (VBool active)) this).

Definition update (this data : obj) : obj := data ∪ this.

Definition toFirebase (this : obj) : obj :=
  object
    [ ("id", this !! "id");
      ("name", this !! "name");
      ("lat", this !! "lat");
      ("lng", this !! "lng");
      ("type", this !! "type");
      ("category", this !! "category");
      ("parentValveId", this !! "parentValveId");
      ("households", this !! "households");
      ("flowRate", this !! "flowRate");
      ("flowDirection", this !! "flowDirection");
      ("valveState", this !! "valveState");
      ("active", this !! "active");
      ("status", this !! "status");
      ("mandal", this !! "mandal");
      ("habitation", this !! "habitation");
      ("battery", this !! "battery");
      ("pressure", this !! "pressure");
      ("lastUpdate", this !! "lastUpdate") ].

End Valve.

(** *** Pipeline *)

Module Pipeline.
Section Host.
Variable parseFloatText : string -> option Q.

(** [new Pipeline(data)]; [now k] is the value of the [k]-th
    [Date.now()] and [suffix] that of
    [Math.random().toString(36).substr(2, 9)], each read only for a
    default that is used. *)
Definition new (now : nat -> Z) (suffix : string) (data : obj) : obj :=
  let reads := if truthy (data !! "id") then O else 1%nat in
  object
    [ ("id",
       data !! "id"
       ||| str ("pipe_" +:+ Text.ofNumber (Num.of_Z (now O)) +:+ "_"
                +:+ suffix));
      ("name",
       data !! "name"
       ||| str ("Pipeline " +:+ Text.ofNumber (Num.of_Z (now reads))));
      ("type", data !! "type" ||| str "PVC");
      ("diameter",
       num (HistoryService.numOr
              (parseFloat parseFloatText (data !! "diameter")) 150));
      ("capacity",
       num (HistoryService.numOr
              (parseFloat parseFloatText (data !! "capacity")) 500));
      ("startPoint", data !! "startPoint" ||| str EmptyString);
      ("endPoint", data !! "endPoint" ||| str EmptyString);
      ("notes", data !! "notes" ||| str EmptyString);
      ("points", data !! "points" ||| Some (VArr []));
      ("currentFlow", num 0);
      ("active",
       match data !! "active" with
       | Some active => Some active
       | None => Some (VBool true)
       end) ].
End Host.

Definition update (this data : obj) : obj := data ∪ this.

Definition toFirebase (this : obj) : obj :=
  object
    [ ("id", this !! "id");
      ("name", this !! "name");
      ("type", this !! "type");
      ("diameter", this !! "diameter");
      ("capacity", this !! "capacity");
      ("startPoint", this !! "startPoint");
      ("endPoint", this !! "endPoint");
      ("notes", this !! "notes");
      ("points", this !! "points");
      ("active", this !! "active") ].

End Pipeline.

End Models.

(** * Vocabulary of the properties *)

Import HistoryService.

(** The key as the specification words it: [0] stands for an absent
    timestamp. *)
Definition keyWithZero (originalTimestamp distance : option value) : string :=
  String_ (originalTimestamp ||| num 0) +:+ "_"
    +:+ Text.replaceAll Text.dot "_" (String_ (distance ||| num 0)).

Definition emptyStore : Store := mkStore ∅ (fun _ => false) (fun _ => false).

(** The entry stored under [historyKey] for a device. *)
Definition stored (st : Store) (deviceType deviceId historyKey : string)
    : option obj :=
  data st !! historyPath deviceType deviceId ≫= (.!! historyKey).



Definition readingAt2_5 : Reading.t :=
  Reading.make (Some 1700000000000%Q) (Some (5 # 2)%Q) ∅.

Definition hasTimestamp (r : Reading.t) : bool :=
  numTruthy (Reading.timestamp r).

Definition countIf {A : Type} (f : A -> bool) (l : list A) : nat :=
  length (List.filter f l).

(** The key of a reading that has a timestamp. *)
Definition historyKeyOf (r : Reading.t) : string :=
  generateHistoryKey 0 (num (numOr (Reading.timestamp r) 0))
    (VNum <$> Reading.distance r).


(** The stored history of a device with its effective timestamps, as the
    query sees it before it filters and sorts. *)
Definition effectiveHistory (StringToNumber : string -> option Q)
    (now : nat -> Z) (st : Store) (deviceId deviceType : string) : list obj :=
  match get st (historyPath deviceType deviceId) with
  | Some (Some rawData) => normalized StringToNumber now rawData
  | _ => []
  end.

(** A history whose entries carry the counter of the device. *)
Definition counterHistory : Store :=
  mkStore
    {[ "history/tanks/t1" :=
         <[ "5000_2_5" := <[ "timestamp" := VNum 5000 ]>
                            {[ "distance" := VNum (5 # 2) ]} ]>
         {[ "7000_2_4" := <[ "timestamp" := VNum 7000 ]>
                            {[ "distance" := VNum (12 # 5) ]} ]} ]}
    (fun _ => false) (fun _ => false).

Definition counterReading : Reading.t :=
  Reading.make (Some 5000000%Q) (Some (5 # 2)%Q) ∅.

Definition readingAtZero : Reading.t :=
  Reading.make (Some 1700000000000%Q) (Some 0%Q) ∅.

Definition counterBatch : list Reading.t :=
  [ Reading.make (Some 1000%Q) (Some (5 # 2)%Q) ∅;
    Reading.make (Some 2000%Q) (Some (12 # 5)%Q) ∅;
    Reading.make (Some 3000%Q) (Some (23 # 10)%Q) ∅;
    Reading.make (Some 4000%Q) (Some (11 # 5)%Q) ∅;
    Reading.make (Some 5000%Q) (Some (21 # 10)%Q) ∅ ].

(** The rest of a quoted field after its opening quote: quotes come in
    pairs, but for the one that ends the field. *)
Fixpoint closes (s : string) : bool :=
  match s with
  | EmptyString => false
  | String c rest =>
      if Ascii.eqb c Text.dquote then
        match rest with
        | EmptyString => true
        | String c' rest' => Ascii.eqb c' Text.dquote && closes rest'
        end
      else closes rest
  end.

Definition wellQuoted (field : string) : bool :=
  match field with
  | EmptyString => false
  | String c rest => Ascii.eqb c Text.dquote && closes rest
  end.

Definition quotedName : obj :=
  <[ "timestamp" := VNum 1700000000000 ]>
    {[ "valveStates" :=
         VArr [ VObj [ ("name", VStr ("a" +:+ quote +:+ "b"));
                       ("state", VStr "open") ] ] ]}.

Definition quotedChange : obj :=
  <[ "timestamp" := VNum 1700000000000 ]>
    {[ "changes" := VStr ("a" +:+ quote +:+ "b") ]}.

Definition underscore : ascii := "_"%char.

(** The key by which a turn looks a reading up. *)
Definition uniqueKeyOf (r : Reading.t) : string :=
  Text.ofNumber (numOr (Reading.timestamp r) 0) +:+ "_"
    +:+ Text.ofNumber (numOr (Reading.distance r) 0).

(** A reading is recognised later when its distance is not zero and it
    brings no [originalTimestamp] of its own. *)
Definition recognisable (r : Reading.t) : Prop :=
  numTruthy (Reading.distance r) = true
  /\ Reading.others r !! "originalTimestamp" = None.

Definition scenarioBatch : list Reading.t :=
  [ Reading.make (Some 1700000000000%Q) (Some (5 # 2)%Q) ∅;
    Reading.make (Some 1700000300000%Q) (Some (12 # 5)%Q) ∅ ].

Definition scenarioTank : Tank.t :=
  Tank.make (Some "cylinder") (Some 2%Q) None None (Some 5%Q) (Some 5%Q) None.

(** Three entries with trusted timestamps, two days apart. *)
Definition threeDays : Store :=
  mkStore
    {[ "history/tanks/t1" :=
         <[ "1700000000000_2_5" := {[ "timestamp" := VNum 1700000000000 ]} ]>
        (<[ "1700172800000_2_4" := {[ "timestamp" := VNum 1700172800000 ]} ]>
         {[ "1700345600000_2_3" := {[ "timestamp" := VNum 1700345600000 ]} ]}) ]}
    (fun _ => false) (fun _ => false).

(** The timestamp under which [saveDataPoint] files a data point. *)
Definition savedTimestamp (now : Z) (point : obj) : value :=
  default VNull
    (point !! "timestamp" ||| point !! "deviceTimestamp"
     ||| num (Num.of_Z now)).

(** An entry the final sort of the query places by its timestamp: the
    timestamp reads as a number and the sort key is not below 1000000. *)
Definition dated (StringToNumber : string -> option Q) (h : obj) : bool :=
  match toNumber StringToNumber (h !! "timestamp") with
  | Some _ =>
      negb (ltN (toNumber StringToNumber (h !! "sortKey"))
              (Some 1000000%Q))
  | None => false
  end.

(** The timestamp of [a] is not below that of [b]. *)
Definition notOlder (StringToNumber : string -> option Q) (a b : obj)
    : Prop :=
  geN (toNumber StringToNumber (a !! "timestamp"))
      (toNumber StringToNumber (b !! "timestamp")) = true.

(** The timestamp of [h] is a number from [first] to the end of the day
    that starts at [last]. *)
Definition inRange (StringToNumber : string -> option Q) (first last : Q)
    (h : obj) : Prop :=
  exists t, toNumber StringToNumber (h !! "timestamp") = Some t
            /\ (first <= t)%Q /\ (t <= last + 86400000)%Q.



(** The characters of a number in positional notation. *)
Definition numeric (c : ascii) : bool :=
  let n := nat_of_ascii c in
  (48 <=? n)%nat && (n <=? 57)%nat || Ascii.eqb c "-" || Ascii.eqb c ".".

Definition comma : ascii := ","%char.
Definition lineFeed : ascii := "010"%char.

(** The value an object literal gives the property [k], [found] when the
    literal does not name it. *)
Fixpoint propOf (k : string) (props : list (string * option value))
    (found : option value) : option value :=
  match props with
  | [] => found
  | (k', v) :: rest => propOf k rest (if String.eqb k' k then v else found)
  end.

(** The geometry a synchronisation reads in a tank object. *)
Definition geometryOf (StringToNumber : string -> option Q) (this : obj)
    : Tank.t :=
  let number k := toNumber StringToNumber (this !! k) in
  Tank.make
    (match this !! "shape" with Some (VStr shape) => Some shape | _ => None
     end)
    (number "diameter") (number "length") (number "breadth")
    (number "height") (number "sensorHeight") (number "capacity").

(** The characters a key of the store must not hold. *)
Definition forbidden : list ascii :=
  [ "."%char; "#"%char; "$"%char; "["%char; "]"%char; "/"%char ].

(** A reading the query will date by its own timestamp: the timestamp is
    a number from 946,684,800,000 on and the reading brings no
    [originalTimestamp] of its own. *)
Definition trusted (r : Reading.t) : bool :=
  match Reading.timestamp r with
  | Some t => Num.leb year2000InMs t
  | None => false
  end
  && bool_decide (Reading.others r !! "originalTimestamp" = None).

(** * Properties *)

(** ** Numbers *)

Module NumFacts.

Lemma ltb_lt a b : Num.ltb a b = true <-> (a < b)%Q.
Proof. unfold Num.ltb, Qlt. apply Z.ltb_lt. Qed.

Lemma leb_le a b : Num.leb a b = true <-> (a <= b)%Q.
Proof. unfold Num.leb, Qle. apply Z.leb_le. Qed.

Lemma eqb_eq a b : Num.eqb a b = true <-> (a == b)%Q.
Proof. unfold Num.eqb, Qeq. apply Z.eqb_eq. Qed.

Lemma ltb_of_Z a b : Num.ltb (Num.of_Z a) (Num.of_Z b) = (a <? b)%Z.
Proof. unfold Num.ltb, Num.of_Z, inject_Z; simpl. by rewrite !Z.mul_1_r. Qed.

Lemma leb_of_Z a b : Num.leb (Num.of_Z a) (Num.of_Z b) = (a <=? b)%Z.
Proof. unfold Num.leb, Num.of_Z, inject_Z; simpl. by rewrite !Z.mul_1_r. Qed.

Lemma eqb_of_Z a b : Num.eqb (Num.of_Z a) (Num.of_Z b) = (a =? b)%Z.
Proof. unfold Num.eqb, Num.of_Z, inject_Z; simpl. by rewrite !Z.mul_1_r. Qed.

Lemma Qred_of_Z z : Qred (inject_Z z) = inject_Z z.
Proof.
  unfold Qred, inject_Z.
  pose proof (Z.ggcd_gcd z 1) as Hg.
  pose proof (Z.ggcd_correct_divisors z 1) as Hd.
  destruct (Z.ggcd z 1) as [g [aa bb]]; simpl in *.
  rewrite Z.gcd_1_r in Hg; subst g. destruct Hd as [Ha Hb].
  rewrite Z.mul_1_l in Ha, Hb. by subst aa bb.
Qed.

Lemma sub_of_Z a b : Num.sub (Num.of_Z a) (Num.of_Z b) = Num.of_Z (a - b).
Proof.
  unfold Num.sub, Num.of_Z. rewrite <- (Qred_of_Z (a - b)).
  apply Qred_complete. unfold Qeq, inject_Z; simpl. lia.
Qed.

Lemma mul_of_Z a b : Num.mul (Num.of_Z a) (Num.of_Z b) = Num.of_Z (a * b).
Proof.
  unfold Num.mul, Num.of_Z. rewrite <- (Qred_of_Z (a * b)).
  apply Qred_complete. unfold Qeq, inject_Z; simpl. lia.
Qed.

End NumFacts.

(** ** Timestamps *)

Lemma normalizeTimestamp_Some (t : option Q) (v : Q) :
  normalizeTimestamp t = Some v -> t = Some v /\ (year2000InMs <= v)%Q.
Proof.
  destruct t as [t|]; cbn [normalizeTimestamp]; [|discriminate].
  destruct (Num.eqb t 0); [discriminate|].
  destruct (Num.ltb t 1000000); [discriminate|].
  destruct (Num.leb 1000000 t && Num.ltb t year2000InSeconds) eqn:Hband.
  - apply andb_true_iff in Hband as [_ Hlt]. apply NumFacts.ltb_lt in Hlt.
    destruct (Num.leb year2000InMs (Num.mul t 1000)) eqn:Hconv; [|discriminate].
    exfalso. apply NumFacts.leb_le in Hconv. unfold Num.mul in Hconv.
    rewrite Qred_correct in Hconv. destruct t as [n d].
    unfold Qle, Qlt, year2000InMs, year2000InSeconds in *; cbn in *.
    rewrite ?Pos.mul_1_r in *. lia.
  - destruct (Num.leb year2000InMs t) eqn:Hms; [|discriminate].
    intros [= <-]. split; [done|]. by apply NumFacts.leb_le.
Qed.

Lemma normalizeTimestamp_valid (t : Q) :
  (year2000InMs <= t)%Q -> normalizeTimestamp (Some t) = Some t.
Proof.
  intros Hle. cbn [normalizeTimestamp].
  assert (Num.eqb t 0 = false) as ->.
  { apply not_true_iff_false. rewrite NumFacts.eqb_eq. intros Heq.
    rewrite Heq in Hle. by apply Hle. }
  assert (Num.ltb t 1000000 = false) as ->.
  { apply not_true_iff_false. rewrite NumFacts.ltb_lt. intros Hlt.
    destruct t as [n d]. unfold Qle, Qlt, year2000InMs in *; cbn in *. lia. }
  assert (Num.ltb t year2000InSeconds = false) as ->.
  { apply not_true_iff_false. rewrite NumFacts.ltb_lt. intros Hlt.
    destruct t as [n d].
    unfold Qle, Qlt, year2000InMs, year2000InSeconds in *; cbn in *. lia. }
  rewrite andb_false_r.
  by apply NumFacts.leb_le in Hle as ->.
Qed.

(** C7: on an integer, [normalizeTimestamp] answers a value that is at least
    946,684,800,000 or [null]; never a value from 1 up to that threshold; and
    an integer below 1,000,000 (zero among them) and an absent argument give
    [null]. *)
Theorem normalizeTimestamp_canonical_or_null (z : Z) :
  (normalizeTimestamp (Some (Num.of_Z z)) = None
   \/ exists v, normalizeTimestamp (Some (Num.of_Z z)) = Some v
                /\ (946684800000 <= v)%Q)
  /\ (forall v, normalizeTimestamp (Some (Num.of_Z z)) = Some v ->
                ~ (1 <= v /\ v < 946684800000)%Q)
  /\ (z < 1000000 -> normalizeTimestamp (Some (Num.of_Z z)) = None)
  /\ normalizeTimestamp (Some (Num.of_Z 0)) = None
  /\ normalizeTimestamp None = None.
Proof.
  repeat split.
  - destruct (normalizeTimestamp (Some (Num.of_Z z))) as [v|] eqn:Hn; [|by left].
    right. exists v. split; [done|].
    by destruct (normalizeTimestamp_Some _ _ Hn).
  - intros v Hn [_ Hlt].
    destruct (normalizeTimestamp_Some _ _ Hn) as [_ Hle].
    apply (Qlt_irrefl v). eapply Qlt_le_trans; [apply Hlt|apply Hle].
  - intros Hz. cbn [normalizeTimestamp].
    destruct (Num.eqb (Num.of_Z z) 0); [done|].
    change 1000000%Q with (Num.of_Z 1000000).
    rewrite NumFacts.ltb_of_Z. by apply Z.ltb_lt in Hz as ->.
Qed.

(** C10: a timestamp in the band of seconds, from 1,000,000 up to
    946,684,800, gives [null], its product by 1000 staying below
    946,684,800,000; so [normalizeTimestamp] answers a value exactly when its
    argument is at least 946,684,800,000, and the value is the argument: the
    branch that converts seconds never answers. *)
Theorem normalizeTimestamp_never_converts (t : Q) :
  ((1000000 <= t)%Q -> (t < 946684800)%Q ->
   (Num.mul t 1000 < 946684800000)%Q /\ normalizeTimestamp (Some t) = None)
  /\ (is_Some (normalizeTimestamp (Some t)) <-> (946684800000 <= t)%Q)
  /\ (forall v, normalizeTimestamp (Some t) = Some v -> v = t).
Proof.
  split; [|split].
  - intros Hlo Hhi. split.
    + unfold Num.mul. rewrite Qred_correct. destruct t as [n d].
      unfold Qle, Qlt in *; cbn in *. rewrite ?Pos.mul_1_r. lia.
    + destruct (normalizeTimestamp (Some t)) as [v|] eqn:Hn; [|done].
      destruct (normalizeTimestamp_Some _ _ Hn) as [[= <-] Hle].
      exfalso. destruct t as [n d].
      unfold Qle, Qlt, year2000InMs in *; cbn in *. lia.
  - split.
    + intros [v Hn]. by destruct (normalizeTimestamp_Some _ _ Hn) as [[= <-] Hle].
    + intros Hle. rewrite normalizeTimestamp_valid; [by eexists|done].
  - intros v Hn. by destruct (normalizeTimestamp_Some _ _ Hn) as [[= <-] _].
Qed.

(** ** Keys *)

Lemma replaceAll_dot_free (s : string) :
  Text.contains Text.dot (Text.replaceAll Text.dot "_" s) = false.
Proof.
  induction s as [|a s IH]; [done|].
  cbn [Text.replaceAll]. destruct (Ascii.eqb a Text.dot) eqn:Ha.
  - exact IH.
  - cbn [Text.contains]. by rewrite Ha, IH.
Qed.

(** C6, as stated, fails: without a timestamp the key starts with the
    current time, not with [0], and two calls with the same arguments give
    two keys. *)
Lemma generateHistoryKey_absent_timestamp :
  generateHistoryKey 1700000000000 None (num (5 # 2)) = "1700000000000_2_5"
  /\ keyWithZero None (num (5 # 2)) = "0_2_5"
  /\ generateHistoryKey 1700000300000 None (num (5 # 2)) = "1700000300000_2_5"
  /\ generateHistoryKey 1700000000000 None (num (5 # 2))
     <> keyWithZero None (num (5 # 2))
  /\ generateHistoryKey 1700000000000 None (num (5 # 2))
     <> generateHistoryKey 1700000300000 None (num (5 # 2)).
Proof. vm_compute. by repeat split. Qed.

(** C6, amended: the key is [String(originalTimestamp)], or the current time
    when the timestamp is absent or falsy, then [_], then [String(distance)],
    or [0] when the distance is absent or falsy, with every [.] replaced by
    [_], so that this part holds no [.]; with a truthy timestamp the key
    depends on the two arguments alone. *)
Theorem generateHistoryKey_parts (now : Z)
    (originalTimestamp distance : option value) :
  let dist := Text.replaceAll Text.dot "_" (String_ (distance ||| num 0)) in
  generateHistoryKey now originalTimestamp distance
  = (if truthy originalTimestamp then String_ originalTimestamp
     else Text.ofNumber (Num.of_Z now)) +:+ "_" +:+ dist
  /\ Text.contains Text.dot dist = false
  /\ (if truthy originalTimestamp
      then forall now', generateHistoryKey now' originalTimestamp distance
                        = generateHistoryKey now originalTimestamp distance
      else True).
Proof.
  cbv zeta. split; [|split].
  - unfold generateHistoryKey, or_else at 1.
    by destruct (truthy originalTimestamp).
  - apply replaceAll_dot_free.
  - destruct (truthy originalTimestamp) eqn:Ht; [|done].
    intros now'. unfold generateHistoryKey, or_else at 1 3. by rewrite Ht.
Qed.

(** ** Objects *)

Lemma lookup_setProp (k k' : string) (v : option value) (o : obj) :
  setProp k v o !! k' = if decide (k = k') then v else o !! k'.
Proof.
  unfold setProp. destruct v as [x|].
  - by rewrite lookup_insert.
  - by rewrite lookup_delete.
Qed.

Lemma lookup_setProp_eq (k : string) (v : option value) (o : obj) :
  setProp k v o !! k = v.
Proof. rewrite lookup_setProp. by case_decide. Qed.

Lemma lookup_setProp_ne (k k' : string) (v : option value) (o : obj) :
  k <> k' -> setProp k v o !! k' = o !! k'.
Proof. intros Hne. rewrite lookup_setProp. by case_decide. Qed.

(** ** Tank metrics *)

Lemma numOr_nonzero (x : option Q) (d : Q) :
  Num.eqb d 0 = false -> Num.eqb (numOr x d) 0 = false.
Proof.
  intros Hd. unfold numOr. destruct x as [v|]; [|done].
  by destruct (Num.eqb v 0) eqn:Hv.
Qed.






(** ** Sorting *)

Section SortFacts.
Context {A : Type} (gt : A -> A -> bool).

Lemma length_insert_sorted (x : A) (l : list A) :
  length (insert gt x l) = S (length l).
Proof.
  induction l as [|y l IH]; [done|].
  cbn [insert]. destruct (gt x y); cbn [length]; by rewrite ?IH.
Qed.

Lemma length_sort (l : list A) : length (sort gt l) = length l.
Proof.
  induction l as [|x l IH]; [done|].
  cbn [sort foldr]. fold (sort gt l). by rewrite length_insert_sorted, IH.
Qed.

Lemma insert_Permutation (x : A) (l : list A) : insert gt x l ≡ₚ x :: l.
Proof.
  induction l as [|y l IH]; [done|].
  cbn [insert]. destruct (gt x y); [|done].
  rewrite IH. apply Permutation_swap.
Qed.

Lemma sort_Permutation (l : list A) : sort gt l ≡ₚ l.
Proof.
  induction l as [|x l IH]; [done|].
  cbn [sort foldr]. fold (sort gt l). by rewrite insert_Permutation, IH.
Qed.

Lemma elem_of_sort (x : A) (l : list A) : x ∈ sort gt l <-> x ∈ l.
Proof. by rewrite sort_Permutation. Qed.

(** A list no element of which compares greater than its successor is left
    as it is. *)
Lemma sort_sorted (l : list A) :
  Sorted (fun a b => gt a b = false) l -> sort gt l = l.
Proof.
  induction 1 as [|x l Hs IH Hhd]; [done|].
  cbn [sort foldr]. fold (sort gt l). rewrite IH.
  destruct Hhd as [|y l' Hxy]; [done|]. cbn [insert]. by rewrite Hxy.
Qed.

End SortFacts.

(** ** The loop of the synchronisation *)

Lemma countIf_Permutation {A : Type} (f : A -> bool) (l l' : list A) :
  l ≡ₚ l' -> countIf f l = countIf f l'.
Proof.
  unfold countIf. induction 1 as [|x l l' _ IH|x y l|l l' l'' _ IH1 _ IH2];
    cbn [List.filter]; try done.
  - destruct (f x); cbn [length]; by rewrite IH.
  - by destruct (f x), (f y).
  - by rewrite IH1.
Qed.

Lemma rawTimestamp_zero (r : Reading.t) :
  Num.eqb (numOr (Reading.timestamp r) 0) 0 = negb (hasTimestamp r).
Proof.
  unfold hasTimestamp, numTruthy, numOr.
  destruct (Reading.timestamp r) as [v|]; [|done].
  destruct (Num.eqb v 0) eqn:Hv; [done|]. by rewrite Hv.
Qed.






(** Writes that are all fulfilled are all counted. *)
Lemma settle_fulfilled (st : Store) (node : string)
    (saves : list (string * obj)) :
  (forall path, setRejects st path = false) ->
  (settle st node saves).2 = length saves.
Proof.
  revert st. induction saves as [|[k e] saves IH]; intros st Hok; [done|].
  cbn [settle]. unfold set. rewrite Hok.
  specialize (IH (mkStore
                    (<[node := <[k := e]> (default ∅ (data st !! node))]>
                       (data st))
                    (getThrows st) (setRejects st)) Hok).
  destruct (settle _ node saves) as [st2 n]. cbn in *. by rewrite IH.
Qed.




Lemma setRejects_set (st : Store) (node key : string) (entry : obj) :
  setRejects (set st node key entry).1 = setRejects st.
Proof. unfold set. by destruct (setRejects st _). Qed.


(** ** A read of the history that fails *)




(** ** Queries *)

Section QueryFacts.
Variable StringToNumber : string -> option Q.
Variable parseDate : string -> option Q.

Lemma ltN_not_gtN (a b : option Q) : ltN a b = true -> gtN a b = false.
Proof.
  destruct a as [x|], b as [y|]; cbn; try done.
  intros Hlt. apply not_true_iff_false. intros Hgt.
  apply NumFacts.ltb_lt in Hlt, Hgt.
  apply (Qlt_irrefl x). by eapply Qlt_trans.
Qed.

(** Without an effective timestamp above the threshold the dates are not
    looked at. *)
Lemma dateFiltered_untrusted (startDate endDate : option DateArg)
    (history : list obj) :
  hasValidTimestamps StringToNumber history = false ->
  dateFiltered StringToNumber parseDate startDate endDate history = history.
Proof. intros Hvalid. unfold dateFiltered. by rewrite Hvalid. Qed.

Lemma dateFiltered_no_dates (history : list obj) :
  dateFiltered StringToNumber parseDate None None history = history.
Proof. unfold dateFiltered. cbn [given]. by destruct (hasValidTimestamps _ _). Qed.

Lemma hasValidTimestamps_below (history : list obj) :
  (forall h, h ∈ history ->
     ltN (toNumber StringToNumber (h !! "timestamp")) (Some 946684800000%Q)
     = true) ->
  hasValidTimestamps StringToNumber history = false.
Proof.
  intros Hbelow. apply not_true_iff_false. unfold hasValidTimestamps.
  rewrite existsb_exists. intros (h & Hin & Hgt).
  apply list_elem_of_In, Hbelow, ltN_not_gtN in Hin. congruence.
Qed.

(** C4: when every effective timestamp of the stored history is below
    946,684,800,000, a query with any [startDate] and [endDate] answers what
    the query without dates answers. *)
Theorem getHistory_ignores_dates_of_untrusted_history (now : nat -> Z)
    (st : Store) (deviceId deviceType : string)
    (startDate endDate : option DateArg) :
  forallb
    (fun h => ltN (toNumber StringToNumber (h !! "timestamp"))
                (Some 946684800000%Q))
    (effectiveHistory StringToNumber now st deviceId deviceType) = true ->
  getHistory StringToNumber parseDate now st deviceId deviceType
    startDate endDate
  = getHistory StringToNumber parseDate now st deviceId deviceType None None.
Proof.
  unfold effectiveHistory, getHistory, get. intros Hbelow.
  destruct (getThrows st _); [done|].
  destruct (data st !! historyPath deviceType deviceId) as [rawData|] eqn:Hraw;
    [|done].
  rewrite dateFiltered_no_dates, dateFiltered_untrusted; [done|].
  apply hasValidTimestamps_below. intros h Hh.
  rewrite forallb_forall in Hbelow. by apply Hbelow, list_elem_of_In.
Qed.

End QueryFacts.

Lemma getHistory_ignores_dates_of_untrusted_history_witness :
  getHistory (fun _ => None) (fun _ => None) (fun _ => 1800000000000)
    counterHistory "t1" "tanks"
    (Some (ADate (Some 1700000000000%Q))) (Some (AText "2023-11-14"))
  = getHistory (fun _ => None) (fun _ => None) (fun _ => 1800000000000)
      counterHistory "t1" "tanks" None None.
Proof.
  apply (getHistory_ignores_dates_of_untrusted_history
           (fun _ => None) (fun _ => None) (fun _ => 1800000000000)
           counterHistory "t1" "tanks").
  vm_compute. reflexivity.
Defined.

(** ** The persisted entry *)

Lemma timestamp_withTankMetrics (tank : Tank.t) (distance : Q)
    (historyEntry : obj) :
  withTankMetrics tank distance historyEntry !! "timestamp"
  = historyEntry !! "timestamp".
Proof. unfold withTankMetrics. by rewrite !lookup_setProp_ne by done. Qed.

(** Whatever the canonical timestamp is, the entry a turn saves carries the
    raw timestamp of the reading: the properties of the reading are copied
    over the ones computed. *)
Lemma turn_saves_raw_timestamp (now : nat -> Z) (existingKeys : gset string)
    (tank : option Tank.t) (total index : nat) (reading : Reading.t)
    (historyKey : string) (historyEntry : obj) :
  turn now existingKeys tank total index reading
  = Saved historyKey historyEntry ->
  hasTimestamp reading = true
  /\ historyEntry !! "timestamp" = VNum <$> Reading.timestamp reading.
Proof.
  unfold turn. rewrite rawTimestamp_zero.
  destruct (hasTimestamp reading) eqn:Hts; cbn [negb]; [|done].
  destruct (bool_decide _); [done|].
  destruct (Date.toISOString _) as [date|]; [|done].
  intros [= _ <-]. split; [done|].
  assert (Reading.props reading !! "timestamp"
          = VNum <$> Reading.timestamp reading) as Hprop.
  { unfold Reading.props. apply lookup_setProp_eq. }
  unfold hasTimestamp, numTruthy in Hts.
  destruct (Reading.timestamp reading) as [t|] eqn:Ht; [|done].
  cbn [fmap option_fmap option_map] in *.
  destruct tank as [tank|], (Reading.distance reading) as [distance|];
    rewrite ?timestamp_withTankMetrics;
    by apply lookup_union_Some_l.
Qed.

(** C1, on the code: a reading whose timestamp is a counter gets the time
    of the call as canonical timestamp, and the entry stored for it carries
    the counter as [timestamp] and a [date] that is not the rendering of
    that [timestamp]. *)
Theorem persisted_timestamp_is_not_canonical :
  canonicalTimestamp (fun _ => 1800000000000) 1 0 5000000 = 1800000000000%Q
  /\ stored
       (syncDeviceReadingsToHistory (fun _ => 1800000000000) emptyStore
          "t1" "tanks" [counterReading] None).2
       "tanks" "t1" "5000000_2_5" ≫= (.!! "timestamp")
     = Some (VNum 5000000)
  /\ stored
       (syncDeviceReadingsToHistory (fun _ => 1800000000000) emptyStore
          "t1" "tanks" [counterReading] None).2
       "tanks" "t1" "5000000_2_5" ≫= (.!! "date")
     = Some (VStr "2027-01-15T08:00:00.000Z")
  /\ Date.toISOString 5000000 = Some "1970-01-01T01:23:20.000Z"
  /\ Date.toISOString 1800000000000 = Some "2027-01-15T08:00:00.000Z".
Proof. by vm_compute. Qed.

(** ** Synchronising twice *)

(** C2, on the code: a reading whose distance is zero is stored under the
    key [1700000000000_0], is read back as [1700000000000_], and is written
    again by the second call. *)
Theorem second_sync_writes_zero_distance_again :
  (syncDeviceReadingsToHistory (fun _ => 1800000000000) emptyStore
     "t1" "tanks" [readingAtZero] None).1
  = mkResult 1 0 None
  /\ existingKey
       <$> getHistoryRaw
             (syncDeviceReadingsToHistory (fun _ => 1800000000000) emptyStore
                "t1" "tanks" [readingAtZero] None).2
             "t1" "tanks"
     = ["1700000000000_"]
  /\ (syncDeviceReadingsToHistory (fun _ => 1800000000000)
        (syncDeviceReadingsToHistory (fun _ => 1800000000000) emptyStore
           "t1" "tanks" [readingAtZero] None).2
        "t1" "tanks" [readingAtZero] None).1
     = mkResult 1 0 None.
Proof. by vm_compute. Qed.

(** ** Assigned timestamps *)

Lemma rawOrder_ascending (a b : Reading.t) :
  (numOr (Reading.timestamp a) 0 <= numOr (Reading.timestamp b) 0)%Q ->
  rawOrder a b = false.
Proof.
  intros Hle. apply not_true_iff_false. unfold rawOrder, Num.sub.
  rewrite NumFacts.ltb_lt, Qred_correct. intros Hlt.
  apply Qlt_minus_iff in Hlt. by apply Qle_not_lt in Hle.
Qed.

(** A reading whose raw timestamp is below the threshold is given the time
    of its turn less five minutes for every reading after it. *)
Lemma canonicalTimestamp_assigned (now : nat -> Z) (total index : nat)
    (rawTimestamp : Q) :
  (rawTimestamp < 946684800000)%Q ->
  canonicalTimestamp now total index rawTimestamp
  = Num.of_Z (now index
              - (Z.of_nat total - 1 - Z.of_nat index) * 5 * 60 * 1000).
Proof.
  intros Hlt. unfold canonicalTimestamp.
  destruct (normalizeTimestamp (Some rawTimestamp)) as [v|] eqn:Hn.
  - destruct (normalizeTimestamp_Some _ _ Hn) as [[= <-] Hle].
    exfalso. apply (Qlt_irrefl rawTimestamp).
    eapply Qlt_le_trans; [apply Hlt|apply Hle].
  - unfold assignedTimestamp. by rewrite NumFacts.sub_of_Z.
Qed.

Lemma canonicalTimestamp_valid (now : nat -> Z) (total index : nat)
    (rawTimestamp : Q) :
  (946684800000 <= rawTimestamp)%Q ->
  canonicalTimestamp now total index rawTimestamp = rawTimestamp.
Proof.
  intros Hle. unfold canonicalTimestamp.
  rewrite normalizeTimestamp_valid by done.
  assert (Num.eqb rawTimestamp 0 = false) as ->.
  { apply not_true_iff_false. rewrite NumFacts.eqb_eq. intros Heq.
    rewrite Heq in Hle. by apply Hle. }
  assert (Num.ltb rawTimestamp 946684800000 = false) as ->; [|done].
  apply not_true_iff_false. rewrite NumFacts.ltb_lt. intros Hlt.
  apply (Qlt_irrefl rawTimestamp). by eapply Qlt_le_trans.
Qed.

(** C5, on the code: five readings that carry a counter are given
    timestamps five minutes apart that end at the time of the call, and
    their [date]s render them, but the [timestamp]s stored are the
    counters. *)
Theorem assigned_timestamps_are_not_persisted :
  imap (fun i r => canonicalTimestamp (fun _ => 1800000000000) 5 i
                     (numOr (Reading.timestamp r) 0)) counterBatch
  = [ 1799998800000%Q; 1799999100000%Q; 1799999400000%Q; 1799999700000%Q;
      1800000000000%Q ]
  /\ (fun r =>
        stored
          (syncDeviceReadingsToHistory (fun _ => 1800000000000) emptyStore
             "t1" "tanks" counterBatch None).2
          "tanks" "t1" (historyKeyOf r) ≫= (.!! "date")) <$> counterBatch
     = [ str "2027-01-15T07:40:00.000Z"; str "2027-01-15T07:45:00.000Z";
         str "2027-01-15T07:50:00.000Z"; str "2027-01-15T07:55:00.000Z";
         str "2027-01-15T08:00:00.000Z" ]
  /\ (fun r =>
        stored
          (syncDeviceReadingsToHistory (fun _ => 1800000000000) emptyStore
             "t1" "tanks" counterBatch None).2
          "tanks" "t1" (historyKeyOf r) ≫= (.!! "timestamp")) <$> counterBatch
     = [ num 1000; num 2000; num 3000; num 4000; num 5000 ].
Proof. by vm_compute. Qed.

(** ** Quoting in the export *)

Lemma closes_escaped (s : string) :
  closes (Text.replaceAll Text.dquote (quote +:+ quote) s +:+ quote) = true.
Proof.
  induction s as [|c s IH]; [done|].
  cbn [Text.replaceAll]. destruct (Ascii.eqb c Text.dquote) eqn:Hc.
  - exact IH.
  - change (closes (String c (Text.replaceAll Text.dquote (quote +:+ quote) s
                              +:+ quote)) = true).
    cbn [closes]. by rewrite Hc.
Qed.

Section ExportFacts.
Variable StringToNumber : string -> option Q.
Variable toLocaleDateString toLocaleTimeString toLocaleString
  : value -> string.

(** X5: in the schema of the valves, every row the mapper produces ends
    with the column of the changes in double quotes, each quote of the
    change doubled. *)
Theorem valveRow_changes_quoted (now : Z) (h : obj) :
  match valveRow StringToNumber toLocaleString now h with
  | Some row =>
      exists changes field,
        h !! "changes" ||| str "No changes" = Some (VStr changes)
        /\ last row = Some field
        /\ field
           = quote
               +:+ Text.replaceAll Text.dquote (quote +:+ quote) changes
               +:+ quote
        /\ wellQuoted field = true
  | None => True
  end.
Proof.
  unfold valveRow.
  destruct (h !! "changes" ||| str "No changes") as [[| | |changes| |]|];
    try done.
  eexists changes, _. split; [done|]. split; [reflexivity|]. split; [done|].
  cbn [wellQuoted quote String.append]. apply closes_escaped.
Qed.

(** C9, on the code: a valve whose name holds a quote gives, in the schema
    of the tanks, a last column in which that quote stands alone, where the
    other schema doubles the quote of a change. *)
Theorem tanksRow_leaves_quote_alone (now : Z) :
  (tanksRow StringToNumber toLocaleDateString toLocaleTimeString now
     quotedName ≫= last)
  = Some (quote +:+ "a" +:+ quote +:+ "b:open" +:+ quote)
  /\ wellQuoted (quote +:+ "a" +:+ quote +:+ "b:open" +:+ quote) = false
  /\ (valveRow StringToNumber toLocaleString now quotedChange ≫= last)
     = Some (quote +:+ "a" +:+ quote +:+ quote +:+ "b" +:+ quote)
  /\ wellQuoted (quote +:+ "a" +:+ quote +:+ quote +:+ "b" +:+ quote) = true.
Proof. by vm_compute. Qed.

End ExportFacts.

(** ** The order of a sorted batch *)

(** X1: a batch that is sorted ascending by raw timestamp is visited in its
    own order, and a reading at position [i] of [n] whose raw timestamp is
    below 946,684,800,000 is given the time of its turn less 5 minutes for
    each of the [n - 1 - i] readings after it; with a fixed instant the
    timestamps given to neighbours are 5 minutes apart and the last one is
    the instant. *)
Theorem sorted_batch_assigned_timestamps (now : nat -> Z)
    (readings : list Reading.t) :
  Sorted (fun a b => (numOr (Reading.timestamp a) 0
                      <= numOr (Reading.timestamp b) 0)%Q) readings ->
  sort rawOrder readings = readings
  /\ (forall i r, readings !! i = Some r ->
        (numOr (Reading.timestamp r) 0 < 946684800000)%Q ->
        canonicalTimestamp now (length readings) i
          (numOr (Reading.timestamp r) 0)
        = Num.of_Z (now i - (Z.of_nat (length readings) - 1 - Z.of_nat i)
                            * 300000))
  /\ (forall t, (forall i, now i = t) ->
        (readings <> [] ->
         assignedTimestamp now (length readings) (length readings - 1)
         = Num.of_Z t)
        /\ forall i, assignedTimestamp now (length readings) (S i)
                     = Num.add (assignedTimestamp now (length readings) i)
                         300000).
Proof.
  intros Hsorted. split; [|split].
  - apply sort_sorted.
    induction Hsorted as [|x l Hs IH Hhd]; constructor; [done|].
    destruct Hhd as [|y l' Hxy]; constructor. by apply rawOrder_ascending.
  - intros i r _ Hlt. rewrite canonicalTimestamp_assigned by done.
    f_equal. lia.
  - intros t Hnow. unfold assignedTimestamp. split.
    + intros Hne. rewrite NumFacts.sub_of_Z, Hnow. f_equal.
      destruct readings; [done|]. cbn [length]. lia.
    + intros i. rewrite !NumFacts.sub_of_Z, !Hnow.
      change 300000%Q with (Num.of_Z 300000).
      unfold Num.add, Num.of_Z.
      rewrite <- (NumFacts.Qred_of_Z (t - _)).
      apply Qred_complete. unfold Qeq, inject_Z; cbn. lia.
Qed.

Lemma sorted_batch_assigned_timestamps_witness :
  sort rawOrder counterBatch = counterBatch.
Proof.
  apply (sorted_batch_assigned_timestamps (fun _ => 1800000000000)
           counterBatch).
  repeat constructor; by vm_compute.
Defined.

(** ** Keys are told apart *)

Lemma append_cons (a : ascii) (s s' : string) :
  String a s +:+ s' = String a (s +:+ s').
Proof. reflexivity. Qed.

Lemma append_nil (s : string) : EmptyString +:+ s = s.
Proof. reflexivity. Qed.

Lemma contains_append (c : ascii) (s s' : string) :
  Text.contains c (s +:+ s') = Text.contains c s || Text.contains c s'.
Proof.
  induction s as [|a s IH]; [done|].
  rewrite append_cons. cbn [Text.contains]. by rewrite IH, orb_assoc.
Qed.









Lemma String_distance (distance : option Q) :
  String_ ((VNum <$> distance) ||| num 0) = Text.ofNumber (numOr distance 0).
Proof.
  unfold or_else, numOr. destruct distance as [d|]; [|done].
  cbn [fmap option_fmap option_map truthy]. by destruct (Num.eqb d 0).
Qed.



Lemma or_else_truthy (a b : option value) :
  truthy a = true -> a ||| b = a.
Proof. intros Ha. unfold or_else. by rewrite Ha. Qed.





Lemma set_other (st : Store) (node key k : string) (entry : obj) :
  key <> k ->
  data (set st node key entry).1 !! node ≫= (.!! k)
  = data st !! node ≫= (.!! k).
Proof.
  intros Hne. unfold set. destruct (setRejects st _); [done|].
  cbn [fst data]. rewrite lookup_insert_eq. cbn [mbind option_bind].
  rewrite lookup_insert_ne by done.
  by destruct (data st !! node).
Qed.

Lemma settle_other (st : Store) (node k : string)
    (saves : list (string * obj)) :
  k ∉ saves.*1 ->
  data (settle st node saves).1 !! node ≫= (.!! k)
  = data st !! node ≫= (.!! k).
Proof.
  revert st. induction saves as [|[key e] saves IH]; intros st Hk; [done|].
  cbn [settle fmap list_fmap fst] in *.
  apply not_elem_of_cons in Hk as [Hne Hk].
  pose proof (set_other st node key k e (not_eq_sym Hne)) as Hset.
  destruct (set st node key e) as [st1 fulfilled]. cbn [fst] in Hset.
  specialize (IH st1 Hk).
  destruct (settle st1 node saves) as [st2 n]. cbn [fst] in *. congruence.
Qed.


Lemma getThrows_settle (st : Store) (node : string)
    (saves : list (string * obj)) :
  getThrows (settle st node saves).1 = getThrows st.
Proof.
  revert st. induction saves as [|[key e] saves IH]; intros st; [done|].
  cbn [settle].
  assert (getThrows (set st node key e).1 = getThrows st) as Hset.
  { unfold set. by destruct (setRejects st _). }
  destruct (set st node key e) as [st1 fulfilled]. cbn [fst] in Hset.
  specialize (IH st1).
  destruct (settle st1 node saves) as [st2 n]. cbn [fst] in *. congruence.
Qed.

Lemma getHistoryRaw_stored (st : Store) (deviceId deviceType k : string)
    (h : obj) :
  getThrows st (historyPath deviceType deviceId) = false ->
  stored st deviceType deviceId k = Some h ->
  h ∈ getHistoryRaw st deviceId deviceType.
Proof.
  intros Hget. unfold stored, getHistoryRaw, get. rewrite Hget.
  destruct (data st !! historyPath deviceType deviceId) as [rawData|];
    [|done].
  cbn [mbind option_bind]. intros Hk.
  apply list_elem_of_fmap. exists (k, h). split; [done|].
  by apply elem_of_map_to_list.
Qed.

(** When every reading with a timestamp is known, every turn skips. *)
Lemma turns_known (now : nat -> Z) (existingKeys : gset string)
    (tank : option Tank.t) (total : nat) (sortedReadings : list Reading.t)
    (index : nat) :
  (forall r, r ∈ sortedReadings -> hasTimestamp r = true ->
     uniqueKeyOf r ∈ existingKeys) ->
  turns now existingKeys tank total index sortedReadings
  = (None, length sortedReadings, []).
Proof.
  revert index. induction sortedReadings as [|r rs IH]; intros index Hknown;
    [done|].
  cbn [turns].
  assert (turn now existingKeys tank total index r = Skipped) as ->.
  { unfold turn. rewrite rawTimestamp_zero.
    destruct (hasTimestamp r) eqn:Hr; cbn [negb]; [|done].
    fold (uniqueKeyOf r).
    rewrite bool_decide_eq_true_2; [done|].
    apply Hknown; [by left|done]. }
  rewrite IH; [done|]. intros r' Hr'. apply Hknown. by right.
Qed.



(** ** The scenarios of the specification *)

(** A scenario: two readings at 2.5 and 2.4 below the sensor of a cylinder
    of diameter 2 and height 5 are stored with the water levels 2.5 and 2.6
    and the volumes 7854 and 8168; a reading without a timestamp is skipped
    and nothing is stored for it. *)
Theorem scenario_cylinder_volumes :
  (syncDeviceReadingsToHistory (fun _ => 1800000000000) emptyStore
     "t1" "tanks" scenarioBatch (Some scenarioTank)).1
  = mkResult 2 0 None
  /\ (fun r =>
        stored
          (syncDeviceReadingsToHistory (fun _ => 1800000000000) emptyStore
             "t1" "tanks" scenarioBatch (Some scenarioTank)).2
          "tanks" "t1" (historyKeyOf r) ≫= (.!! "waterLevel"))
       <$> scenarioBatch
     = [ num (5 # 2); num (13 # 5) ]
  /\ (fun r =>
        stored
          (syncDeviceReadingsToHistory (fun _ => 1800000000000) emptyStore
             "t1" "tanks" scenarioBatch (Some scenarioTank)).2
          "tanks" "t1" (historyKeyOf r) ≫= (.!! "currentVolume"))
       <$> scenarioBatch
     = [ num 7854; num 8168 ]
  /\ syncDeviceReadingsToHistory (fun _ => 1800000000000) emptyStore
       "t1" "tanks" [Reading.make None (Some (5 # 2)%Q) ∅] (Some scenarioTank)
     = (mkResult 0 1 None, emptyStore).
Proof. by vm_compute. Qed.

(** ** The water level *)

Lemma min_le_l (a b : Q) : (Num.min a b <= a)%Q.
Proof.
  unfold Num.min. destruct (Num.ltb b a) eqn:Hlt.
  - apply NumFacts.ltb_lt in Hlt. by apply Qlt_le_weak.
  - apply Qle_refl.
Qed.

(** X3: the water level of a reading is at least zero and, for a sensor
    height that is not negative, at most the sensor height, whatever the
    distance; the sensor height is that of the tank, or its height, or 10,
    in this order, zero counting as absent. *)
Theorem waterLevel_within_tank (tank : Tank.t) (distance : Q) :
  let sensorHeight :=
    numOr (Tank.sensorHeight tank) (numOr (Tank.height tank) 10) in
  (0 <= waterLevelOf tank distance)%Q
  /\ (if Num.leb 0 sensorHeight
      then (waterLevelOf tank distance <= sensorHeight)%Q
      else waterLevelOf tank distance = 0%Q).
Proof.
  cbv zeta. unfold waterLevelOf.
  set (sensorHeight :=
         numOr (Tank.sensorHeight tank) (numOr (Tank.height tank) 10)).
  set (level := Num.min sensorHeight (Num.sub sensorHeight distance)).
  pose proof (min_le_l sensorHeight (Num.sub sensorHeight distance)) as Hmin.
  fold level in Hmin. unfold Num.max.
  destruct (Num.ltb 0 level) eqn:Hpos; split.
  - apply NumFacts.ltb_lt in Hpos. by apply Qlt_le_weak.
  - destruct (Num.leb 0 sensorHeight) eqn:Hs; [done|].
    exfalso. apply NumFacts.ltb_lt in Hpos.
    apply not_true_iff_false in Hs. apply Hs, NumFacts.leb_le.
    apply Qlt_le_weak. by eapply Qlt_le_trans.
  - apply Qle_refl.
  - destruct (Num.leb 0 sensorHeight) eqn:Hs; [|done].
    by apply NumFacts.leb_le in Hs.
Qed.

(** X4: for a cylinder with a diameter, the volume does not decrease when
    the water level rises. *)
Theorem cylinder_volume_monotone (tank : Tank.t) (waterLevel waterLevel' : Q) :
  Tank.shape tank = Some "cylinder" ->
  numTruthy (Tank.diameter tank) = true ->
  (waterLevel <= waterLevel')%Q ->
  exists v v',
    volumeOf tank waterLevel = Some v
    /\ volumeOf tank waterLevel' = Some v'
    /\ (v <= v')%Q.
Proof.
  intros Hshape Hdiameter Hle. unfold volumeOf.
  rewrite Hshape, Hdiameter, bool_decide_eq_true_2 by done. cbn [andb].
  eexists _, _. split; [done|]. split; [done|].
  set (radius := Num.mul (default 0%Q (Tank.diameter tank)) (1 # 2)).
  unfold Num.mul at 1 2 3 5 6 7. rewrite !Qred_correct.
  apply Qmult_le_compat_r; [|done].
  rewrite !(Qmult_comm (Num.PI * _)).
  apply Qmult_le_compat_r; [done|].
  apply Qmult_le_0_compat; [done|].
  unfold Num.mul. rewrite Qred_correct.
  destruct radius as [n d]. unfold Qle, Qmult; cbn. nia.
Qed.

Lemma cylinder_volume_monotone_witness :
  exists v v',
    volumeOf scenarioTank (5 # 2) = Some v
    /\ volumeOf scenarioTank (13 # 5) = Some v'
    /\ (v <= v')%Q.
Proof.
  apply (cylinder_volume_monotone scenarioTank (5 # 2) (13 # 5)).
  - reflexivity.
  - reflexivity.
  - by vm_compute.
Defined.

Section ScenarioFacts.
Variable StringToNumber : string -> option Q.
Variable parseDate : string -> option Q.

(** A scenario: with trusted timestamps, a query between two dates answers
    the entries from the start to the end of the last day, here the first
    of three, and the query without dates answers all three, the newest
    first. *)
Theorem scenario_query_between_dates :
  (fun h => h !! "timestamp")
    <$> getHistory StringToNumber parseDate (fun _ => 1800000000000)
          threeDays "t1" "tanks"
          (Some (ADate (Some 1699999000000%Q)))
          (Some (ADate (Some 1699999000000%Q)))
  = [ num 1700000000000 ]
  /\ (fun h => h !! "timestamp")
       <$> getHistory StringToNumber parseDate (fun _ => 1800000000000)
             threeDays "t1" "tanks" None None
     = [ num 1700345600000; num 1700172800000; num 1700000000000 ].
Proof. by vm_compute. Qed.

End ScenarioFacts.

(** ** Single data points *)

Lemma settle_other_node (st : Store) (node node' : string)
    (saves : list (string * obj)) :
  node' <> node ->
  data (settle st node saves).1 !! node' = data st !! node'.
Proof.
  intros Hne. revert st.
  induction saves as [|[key e] saves IH]; intros st; [done|].
  cbn [settle].
  assert (data (set st node key e).1 !! node' = data st !! node') as Hset.
  { unfold set. destruct (setRejects st _); [done|]. cbn [fst data].
    by rewrite lookup_insert_ne. }
  destruct (set st node key e) as [st1 fulfilled]. cbn [fst] in Hset.
  specialize (IH st1).
  destruct (settle st1 node saves) as [st2 n]. cbn [fst] in *. congruence.
Qed.

Lemma setRejects_settle (st : Store) (node : string)
    (saves : list (string * obj)) :
  setRejects (settle st node saves).1 = setRejects st.
Proof.
  revert st. induction saves as [|[key e] saves IH]; intros st; [done|].
  cbn [settle].
  pose proof (setRejects_set st node key e) as Hset.
  destruct (set st node key e) as [st1 fulfilled]. cbn [fst] in Hset.
  specialize (IH st1).
  destruct (settle st1 node saves) as [st2 n]. cbn [fst] in *. congruence.
Qed.

Lemma generateHistoryKey_marked (now : Z)
    (originalTimestamp distance : option value) :
  Text.contains underscore
    (generateHistoryKey now originalTimestamp distance) = true.
Proof.
  unfold generateHistoryKey. rewrite !contains_append.
  cbn [Text.contains]. unfold underscore. cbn [Ascii.eqb Bool.eqb].
  by rewrite orb_true_r.
Qed.

(** Every key the loop writes under holds an underscore. *)
Lemma turns_marked (now : nat -> Z) (existingKeys : gset string)
    (tank : option Tank.t) (total : nat) (sortedReadings : list Reading.t)
    (index : nat) (k : string) :
  k ∈ (turns now existingKeys tank total index sortedReadings).2.*1 ->
  Text.contains underscore k = true.
Proof.
  revert index. induction sortedReadings as [|r rs IH]; intros index.
  - cbn. by intros ?%elem_of_nil.
  - cbn [turns]. specialize (IH (S index)).
    destruct (turn now existingKeys tank total index r)
      as [|historyKey historyEntry|message] eqn:Hturn.
    + by destruct (turns _ _ _ _ (S index) rs) as [[thrown n] saves].
    + destruct (turns _ _ _ _ (S index) rs) as [[thrown n] saves].
      cbn [snd fmap list_fmap fst] in *.
      intros [->|Hk]%elem_of_cons; [|by apply IH].
      unfold turn in Hturn.
      destruct (Num.eqb _ 0); [done|].
      case_bool_decide; [done|].
      destruct (Date.toISOString _); [|done].
      injection Hturn as <- _. apply generateHistoryKey_marked.
    + cbn. by intros ?%elem_of_nil.
Qed.

(** X7: a synchronisation writes only under the node of its device, and
    there only under keys that hold an underscore: every other entry of the
    store, and which calls of the store fail, are as before. *)
Theorem sync_writes_only_marked_keys (now : nat -> Z) (st : Store)
    (tankId deviceType : string) (readings : list Reading.t)
    (tank : option Tank.t) :
  let st' :=
    (syncDeviceReadingsToHistory now st tankId deviceType readings tank).2 in
  (forall node, node <> historyPath deviceType tankId ->
     data st' !! node = data st !! node)
  /\ (forall k, Text.contains underscore k = false ->
        stored st' deviceType tankId k = stored st deviceType tankId k)
  /\ getThrows st' = getThrows st
  /\ setRejects st' = setRejects st.
Proof.
  cbv zeta. unfold syncDeviceReadingsToHistory.
  destruct readings as [|r rs]; [done|].
  set (readings := r :: rs). set (keys := list_to_set _).
  set (node := historyPath deviceType tankId).
  pose proof (turns_marked now keys tank (length (sort rawOrder readings))
                (sort rawOrder readings) O) as Hmarked.
  destruct (turns _ _ _ _ _ _) as [[thrown n] saves].
  cbn [snd] in Hmarked.
  pose proof (fun node' => settle_other_node st node node' saves) as Hnodes.
  pose proof (fun k => settle_other st node k saves) as Hkeys.
  pose proof (getThrows_settle st node saves) as Hget.
  pose proof (setRejects_settle st node saves) as Hset.
  destruct (settle _ _ saves) as [st' m]. cbn [fst] in *.
  assert (forall k, Text.contains underscore k = false ->
            stored st' deviceType tankId k = stored st deviceType tankId k)
    as Hstored.
  { intros k Hk. unfold stored. apply Hkeys.
    intros Hin. apply Hmarked in Hin. congruence. }
  by destruct thrown.
Qed.

Section SaveFacts.
Variable parseDate : string -> option Q.

(** X8: when [saveDataPoint] answers [true], the store holds, under the
    text of the timestamp of the data point, an entry with every property
    of the data, the timestamp when the data has no [timestamp] of its own
    and the rendering of the timestamp as [date] when the data has no
    [date]; every other entry of the store is as before.  When it answers
    [false] the store is unchanged. *)
Theorem saveDataPoint_outcome (now : Z) (st : Store)
    (deviceId deviceType : string) (point : obj) :
  let result := saveDataPoint parseDate now st deviceId deviceType point in
  let timestamp := savedTimestamp now point in
  if result.1 then
    (exists entry,
       stored result.2 deviceType deviceId (toString timestamp) = Some entry
       /\ (forall k v, point !! k = Some v -> entry !! k = Some v)
       /\ (point !! "timestamp" = None ->
           entry !! "timestamp" = Some timestamp)
       /\ (point !! "date" = None ->
           exists t, dateOf parseDate timestamp = Some t
                     /\ entry !! "date" = Some (VStr (Date.iso t))))
    /\ (forall k, k <> toString timestamp ->
          stored result.2 deviceType deviceId k
          = stored st deviceType deviceId k)
    /\ (forall node, node <> historyPath deviceType deviceId ->
          data result.2 !! node = data st !! node)
  else result.2 = st.
Proof.
  cbv zeta. unfold saveDataPoint. fold (savedTimestamp now point).
  set (timestamp := savedTimestamp now point).
  destruct (dateOf parseDate timestamp) as [t|] eqn:Hdate;
    cbn [fmap option_fmap option_map]; [|done].
  set (entry := point ∪ _).
  pose proof (set_other st (historyPath deviceType deviceId)
                (toString timestamp)) as Hother.
  unfold set in *.
  destruct (setRejects st _) eqn:Hrej; cbn [fst snd] in *; [done|].
  split; [|split].
  - exists entry. split; [|split; [|split]].
    + unfold stored. cbn [data]. rewrite lookup_insert_eq.
      cbn [mbind option_bind]. by rewrite lookup_insert_eq.
    + intros k v Hk. unfold entry. by apply lookup_union_Some_l.
    + intros Hk. unfold entry. rewrite lookup_union_r by done.
      by rewrite lookup_setProp_eq.
    + intros Hk. exists t. split; [done|].
      unfold entry. rewrite lookup_union_r by done.
      rewrite lookup_setProp_ne by done. by rewrite lookup_setProp_eq.
  - intros k Hk. unfold stored. apply (Hother k entry). congruence.
  - intros node Hnode. cbn [data]. by rewrite lookup_insert_ne.
Qed.

Lemma saveDataPoint_true (now : Z) (st : Store)
    (deviceId deviceType : string) (point : obj) :
  (saveDataPoint parseDate now st deviceId deviceType point).1 = true ->
  exists date,
    stored (saveDataPoint parseDate now st deviceId deviceType point).2
      deviceType deviceId (toString (savedTimestamp now point))
    = Some (point ∪ setProp "timestamp" (Some (savedTimestamp now point))
                      (setProp "date" (str date) ∅))
    /\ getThrows (saveDataPoint parseDate now st deviceId deviceType point).2
       = getThrows st.
Proof.
  unfold saveDataPoint. fold (savedTimestamp now point).
  destruct (dateOf parseDate _) as [t|];
    cbn [fmap option_fmap option_map]; [|done].
  unfold set. destruct (setRejects st _); cbn [fst snd]; [done|].
  intros _. exists (Date.iso t). split; [|done].
  unfold stored. cbn [data]. rewrite lookup_insert_eq.
  cbn [mbind option_bind]. by rewrite lookup_insert_eq.
Qed.

(** X9: a data point saved by [saveDataPoint] is recognised by a later
    synchronisation: for a reading with a timestamp, a distance that is
    not zero and no [originalTimestamp] or [deviceTimestamp] of its own,
    once the reading has been saved as a data point, the synchronisation
    of the reading skips it and writes nothing. *)
Theorem sync_skips_saved_data_point (now : Z) (now' : nat -> Z)
    (st : Store) (deviceId deviceType : string) (r : Reading.t)
    (tank : option Tank.t) :
  getThrows st (historyPath deviceType deviceId) = false ->
  hasTimestamp r = true ->
  recognisable r ->
  Reading.others r !! "deviceTimestamp" = None ->
  (saveDataPoint parseDate now st deviceId deviceType (Reading.props r)).1
  = true ->
  syncDeviceReadingsToHistory now'
    (saveDataPoint parseDate now st deviceId deviceType (Reading.props r)).2
    deviceId deviceType [r] tank
  = (mkResult 0 1 None,
     (saveDataPoint parseDate now st deviceId deviceType
        (Reading.props r)).2).
Proof.
  intros Hget Hr [Hdist Horig] Hdev Hsaved.
  destruct (saveDataPoint_true now st deviceId deviceType (Reading.props r)
              Hsaved) as (date & Hstored & Hthrows).
  set (st1 := (saveDataPoint _ _ _ _ _ _).2) in *.
  set (entry := Reading.props r ∪ _) in Hstored.
  assert (uniqueKeyOf r = existingKey entry) as Hkey.
  { unfold hasTimestamp, numTruthy in Hr, Hdist.
    destruct r as [[t|] [d|] others]; cbn in Hr, Hdist, Horig, Hdev;
      try done.
    unfold existingKey, uniqueKeyOf, entry, Reading.props, numOr.
    cbn [Reading.timestamp Reading.distance Reading.others
         fmap option_fmap option_map].
    apply negb_true_iff in Hr, Hdist. rewrite Hr, Hdist.
    assert (forall k v, (setProp "timestamp" (Some (VNum t))
                 (setProp "distance" (Some (VNum d)) others)) !! k = Some v ->
              (setProp "timestamp" (Some (VNum t))
                 (setProp "distance" (Some (VNum d)) others) ∪
               setProp "timestamp" (Some (savedTimestamp now
                 (setProp "timestamp" (Some (VNum t))
                   (setProp "distance" (Some (VNum d)) others))))
                 (setProp "date" (str date) ∅)) !! k = Some v) as Hl.
    { intros k v Hk. by apply lookup_union_Some_l. }
    rewrite (Hl "timestamp" (VNum t)) by by rewrite lookup_setProp_eq.
    rewrite (Hl "distance" (VNum d))
      by (rewrite lookup_setProp_ne by done; by rewrite lookup_setProp_eq).
    rewrite !lookup_union_r
      by (by rewrite !lookup_setProp_ne by done).
    rewrite !lookup_setProp_ne by done. rewrite !lookup_empty.
    unfold or_else. cbn [truthy]. by rewrite Hr, Hdist. }
  unfold syncDeviceReadingsToHistory.
  cbn [sort foldr insert length].
  rewrite turns_known; [done|].
  intros r' ->%list_elem_of_singleton _.
  rewrite Hkey. apply elem_of_list_to_set, list_elem_of_fmap.
  exists entry. split; [done|].
  eapply getHistoryRaw_stored; [|done]. congruence.
Qed.

End SaveFacts.

Lemma sync_skips_saved_data_point_witness :
  syncDeviceReadingsToHistory (fun _ => 1800000000000)
    (saveDataPoint (fun _ => None) 1800000000000 emptyStore "t1" "tanks"
       (Reading.props readingAt2_5)).2
    "t1" "tanks" [readingAt2_5] None
  = (mkResult 0 1 None,
     (saveDataPoint (fun _ => None) 1800000000000 emptyStore "t1" "tanks"
        (Reading.props readingAt2_5)).2).
Proof.
  apply (sync_skips_saved_data_point (fun _ => None)); try reflexivity.
  split; reflexivity.
Defined.

(** ** Queries *)

Section SortedFacts.
Context {A : Type} (gt : A -> A -> bool) (P : A -> Prop)
  (R : A -> A -> Prop).
Hypothesis R_total : forall a b, P a -> P b -> gt a b = false -> R a b.
Hypothesis R_asym : forall a b, P a -> P b -> gt a b = true -> R b a.
Hypothesis R_trans :
  forall a b c, P a -> P b -> P c -> R a b -> R b c -> R a c.

Lemma insert_StronglySorted (x : A) (l : list A) :
  P x -> Forall P l -> StronglySorted R l ->
  StronglySorted R (insert gt x l).
Proof.
  intros Hx Hl Hs. induction Hs as [|y l Hs IH Hy]; cbn [insert].
  - by repeat constructor.
  - apply Forall_cons in Hl as [HPy Hl].
    destruct (gt x y) eqn:Hxy.
    + constructor; [by apply IH|].
      rewrite insert_Permutation. constructor; [by apply R_asym|done].
    + constructor; [by constructor|].
      assert (R x y) as HRxy by by apply R_total.
      constructor; [done|].
      rewrite Forall_forall in Hy, Hl |- *. intros z Hz.
      apply (R_trans x y z); auto.
Qed.

Lemma sort_StronglySorted (l : list A) :
  Forall P l -> StronglySorted R (sort gt l).
Proof.
  induction 1 as [|x l Hx Hl IH]; [constructor|].
  cbn [sort foldr]. fold (sort gt l).
  apply insert_StronglySorted; [done| |done].
  by rewrite sort_Permutation.
Qed.
End SortedFacts.

Lemma filter_all {A : Type} (f : A -> bool) (l : list A) :
  Forall (fun x => f x = true) l -> List.filter f l = l.
Proof.
  induction 1 as [|x l Hx Hl IH]; [done|].
  cbn [List.filter]. by rewrite Hx, IH.
Qed.

Lemma elem_of_List_filter {A : Type} (f : A -> bool) (l : list A) (x : A) :
  x ∈ List.filter f l <-> x ∈ l /\ f x = true.
Proof. rewrite !list_elem_of_In. apply filter_In. Qed.

Lemma sub_positive (x y : Q) :
  Num.ltb 0 (Num.sub x y) = true <-> (y < x)%Q.
Proof.
  rewrite NumFacts.ltb_lt. unfold Num.sub. rewrite Qred_correct.
  symmetry. apply Qlt_minus_iff.
Qed.

Section RangeFacts.
Variable StringToNumber : string -> option Q.
Variable parseDate : string -> option Q.

Lemma lookup_effective_timestamp (now : Z) (h : obj) :
  now <> 0 ->
  truthy (effective StringToNumber now h !! "timestamp") = true.
Proof.
  intros Hnow. unfold effective.
  rewrite lookup_setProp_ne by done. rewrite lookup_setProp_eq.
  destruct (negb _ || _) eqn:Hfirst.
  - destruct (truthy (h !! "timestamp") && _) eqn:Hown.
    + by apply andb_true_iff in Hown as [? _].
    + unfold or_else. destruct (truthy (h !! "timestamp")) eqn:Hts; [done|].
      cbn [truthy num]. change 0%Q with (Num.of_Z 0).
      rewrite NumFacts.eqb_of_Z. by apply negb_true_iff, Z.eqb_neq.
  - apply orb_false_iff in Hfirst as [Hfirst _].
    by apply negb_false_iff in Hfirst.
Qed.

Lemma lookup_effective_other (now : Z) (h : obj) (k : string) :
  k <> "timestamp" -> k <> "sortKey" ->
  effective StringToNumber now h !! k = h !! k.
Proof.
  intros Hts Hkey. unfold effective. by rewrite !lookup_setProp_ne by done.
Qed.

(** X10: every entry a query answers is a stored entry of the device with
    its effective timestamp and its sort key: its other properties are
    those of the stored entry. *)
Theorem getHistory_answers_stored_entries (now : nat -> Z) (st : Store)
    (deviceId deviceType : string) (startDate endDate : option DateArg) :
  Forall
    (fun e =>
       exists h, h ∈ getHistoryRaw st deviceId deviceType
                 /\ forall k, k <> "timestamp" -> k <> "sortKey" ->
                              e !! k = h !! k)
    (getHistory StringToNumber parseDate now st deviceId deviceType
       startDate endDate).
Proof.
  unfold getHistory, getHistoryRaw.
  destruct (get st _) as [[rawData|]|]; [|constructor..].
  apply Forall_forall. intros e He.
  apply elem_of_sort in He.
  assert (e ∈ normalized StringToNumber now rawData) as Hnorm.
  { unfold dateFiltered in He.
    repeat match type of He with
           | context [if ?c then _ else _] => destruct c
           end;
      repeat match type of He with
             | _ ∈ List.filter _ _ =>
                 apply elem_of_List_filter in He as [He _]
             end; done. }
  unfold normalized in Hnorm.
  apply elem_of_List_filter in Hnorm as [Hnorm _].
  apply elem_of_lookup_imap in Hnorm as (i & h & -> & Hh).
  exists h. split; [by eapply list_elem_of_lookup_2|].
  intros k Hts Hkey. by apply lookup_effective_other.
Qed.

Lemma normalized_all (now : nat -> Z) (rawData : gmap string obj) :
  (forall i, now i <> 0) ->
  normalized StringToNumber now rawData
  = imap (fun i h => effective StringToNumber (now i) h)
      (map_to_list rawData).*2.
Proof.
  intros Hnow. unfold normalized. apply filter_all, Forall_forall.
  intros e (i & h & -> & _)%elem_of_lookup_imap.
  by apply lookup_effective_timestamp.
Qed.

(** X11: with a clock that never reads 0, a query without dates drops no
    entry: it answers the stored entries of the device, each with its
    effective timestamp and sort key, in some order. *)
Theorem getHistory_without_dates_is_complete (now : nat -> Z) (st : Store)
    (deviceId deviceType : string) :
  (forall i, now i <> 0) ->
  getHistory StringToNumber parseDate now st deviceId deviceType None None
  ≡ₚ imap (fun i h => effective StringToNumber (now i) h)
       (getHistoryRaw st deviceId deviceType).
Proof.
  intros Hnow. unfold getHistory, getHistoryRaw.
  destruct (get st _) as [[rawData|]|]; [|done..].
  by rewrite sort_Permutation, dateFiltered_no_dates, normalized_all.
Qed.

(** X12: when some effective timestamp of the stored history is above
    946,684,800,000, a query between two valid [Date]s answers exactly the
    entries whose timestamp is a number from the time of [startDate] to
    the time of [endDate] plus one day. *)
Theorem getHistory_between_dates (now : nat -> Z) (st : Store)
    (deviceId deviceType : string) (first last : Q) (e : obj) :
  hasValidTimestamps StringToNumber
    (effectiveHistory StringToNumber now st deviceId deviceType) = true ->
  e ∈ getHistory StringToNumber parseDate now st deviceId deviceType
        (Some (ADate (Some first))) (Some (ADate (Some last)))
  <-> e ∈ effectiveHistory StringToNumber now st deviceId deviceType
      /\ inRange StringToNumber first last e.
Proof.
  unfold effectiveHistory, getHistory. intros Hvalid.
  destruct (get st _) as [[rawData|]|]; [|done..].
  rewrite elem_of_sort. unfold dateFiltered. rewrite Hvalid.
  cbn [given startTimeOf endTimeOf fmap option_fmap option_map].
  rewrite !elem_of_List_filter. unfold inRange, geN, leN, geN.
  destruct (toNumber StringToNumber (e !! "timestamp")) as [t|].
  - rewrite !NumFacts.leb_le. unfold Num.add.
    split.
    + intros [[He Hfirst] Hlast]. split; [done|]. exists t.
      split; [done|]. split; [done|]. by rewrite Qred_correct in Hlast.
    + intros [He (t' & [= <-] & Hfirst & Hlast)].
      split; [done|]. by rewrite Qred_correct.
  - split; [by intros [[_ ?] _]|]. by intros [_ (t & ? & _)].
Qed.

(** X13: when some effective timestamp of the stored history is above
    946,684,800,000, a query whose start or end is given but is not a valid
    date, an invalid [Date] or a text the host does not parse, answers no
    entry. *)
Theorem getHistory_invalid_date_is_empty (now : nat -> Z) (st : Store)
    (deviceId deviceType : string) (startDate endDate : option DateArg) :
  hasValidTimestamps StringToNumber
    (effectiveHistory StringToNumber now st deviceId deviceType) = true ->
  given startDate && bool_decide (startTimeOf parseDate startDate = None)
  || given endDate && bool_decide (endTimeOf parseDate endDate = None)
  = true ->
  getHistory StringToNumber parseDate now st deviceId deviceType
    startDate endDate = [].
Proof.
  unfold effectiveHistory, getHistory. intros Hvalid Hdates.
  destruct (get st _) as [[rawData|]|]; [|done..].
  unfold dateFiltered. rewrite Hvalid.
  assert (forall (f : obj -> bool) l,
            (forall h, f h = false) -> List.filter f l = []) as Hnone.
  { intros f l Hf. induction l as [|h l IH]; [done|].
    cbn [List.filter]. by rewrite Hf. }
  apply orb_true_iff in Hdates as [Hdate|Hdate];
    apply andb_true_iff in Hdate as [-> Hnone'];
    apply bool_decide_eq_true in Hnone'; rewrite Hnone'.
  - rewrite (Hnone _ (normalized StringToNumber now rawData)).
    + by destruct (given endDate).
    + intros h. unfold geN. by destruct (toNumber _ _).
  - by rewrite Hnone.
Qed.

Lemma elem_of_dateFiltered (startDate endDate : option DateArg)
    (history : list obj) (e : obj) :
  e ∈ dateFiltered StringToNumber parseDate startDate endDate history ->
  e ∈ history.
Proof.
  unfold dateFiltered. intros He.
  repeat match type of He with
         | context [if ?c then _ else _] => destruct c
         end;
    repeat match type of He with
           | _ ∈ List.filter _ _ =>
               apply elem_of_List_filter in He as [He _]
           end; done.
Qed.

(** The final sort of the query orders the entries it places by their
    timestamps. *)
Lemma sort_newestFirst_sorted (history : list obj) :
  Forall (fun h => dated StringToNumber h = true) history ->
  StronglySorted (notOlder StringToNumber)
    (sort (newestFirst StringToNumber) history).
Proof.
  apply (sort_StronglySorted _ (fun h => dated StringToNumber h = true)).
  - intros a b Ha Hb. unfold newestFirst, notOlder, dated in *.
    destruct (toNumber _ (a !! "timestamp")) as [ta|]; [|done].
    destruct (toNumber _ (b !! "timestamp")) as [tb|]; [|done].
    apply negb_true_iff in Ha, Hb. rewrite Ha, !andb_false_r.
    cbn [andb subN gtN geN]. intros Hgt. apply NumFacts.leb_le.
    apply not_true_iff_false in Hgt. rewrite sub_positive in Hgt.
    by apply Qnot_lt_le.
  - intros a b Ha Hb. unfold newestFirst, notOlder, dated in *.
    destruct (toNumber _ (a !! "timestamp")) as [ta|]; [|done].
    destruct (toNumber _ (b !! "timestamp")) as [tb|]; [|done].
    apply negb_true_iff in Ha, Hb. rewrite Ha, !andb_false_r.
    cbn [andb subN gtN geN]. intros Hgt. apply NumFacts.leb_le.
    rewrite sub_positive in Hgt. by apply Qlt_le_weak.
  - intros a b c Ha Hb Hc. unfold notOlder, dated in *.
    destruct (toNumber _ (a !! "timestamp")) as [ta|]; [|done].
    destruct (toNumber _ (b !! "timestamp")) as [tb|]; [|done].
    destruct (toNumber _ (c !! "timestamp")) as [tc|]; [|done].
    cbn [geN]. rewrite !NumFacts.leb_le. intros Hab Hbc.
    by eapply Qle_trans.
Qed.

(** X14: when every effective entry has a timestamp that reads as a number
    and a sort key that is not below 1000000, a query answers the newest
    entry first: no entry is followed by one with a greater timestamp. *)
Theorem getHistory_newest_first (now : nat -> Z) (st : Store)
    (deviceId deviceType : string) (startDate endDate : option DateArg) :
  forallb (dated StringToNumber)
    (effectiveHistory StringToNumber now st deviceId deviceType) = true ->
  StronglySorted (notOlder StringToNumber)
    (getHistory StringToNumber parseDate now st deviceId deviceType
       startDate endDate).
Proof.
  unfold effectiveHistory, getHistory. intros Hdated.
  destruct (get st _) as [[rawData|]|]; [|constructor..].
  apply sort_newestFirst_sorted, Forall_forall. intros e He.
  apply elem_of_dateFiltered in He.
  rewrite forallb_forall in Hdated. by apply Hdated, list_elem_of_In.
Qed.

End RangeFacts.

Lemma getHistory_without_dates_is_complete_witness :
  getHistory (fun _ => None) (fun _ => None) (fun _ => 1800000000000)
    threeDays "t1" "tanks" None None
  ≡ₚ imap (fun i h => effective (fun _ => None) 1800000000000 h)
       (getHistoryRaw threeDays "t1" "tanks").
Proof.
  apply (getHistory_without_dates_is_complete
           (fun _ => None) (fun _ => None) (fun _ => 1800000000000)).
  intros i. discriminate.
Defined.

Lemma getHistory_between_dates_witness :
  {[ "timestamp" := VNum 1700000000000 ]}
  ∈ getHistory (fun _ => None) (fun _ => None) (fun _ => 1800000000000)
      threeDays "t1" "tanks"
      (Some (ADate (Some 1699999000000%Q)))
      (Some (ADate (Some 1699999000000%Q)))
  <-> {[ "timestamp" := VNum 1700000000000 ]}
      ∈ effectiveHistory (fun _ => None) (fun _ => 1800000000000)
          threeDays "t1" "tanks"
      /\ inRange (fun _ => None) 1699999000000 1699999000000
           {[ "timestamp" := VNum 1700000000000 ]}.
Proof.
  apply (getHistory_between_dates
           (fun _ => None) (fun _ => None) (fun _ => 1800000000000)
           threeDays "t1" "tanks").
  vm_compute. reflexivity.
Defined.

Lemma getHistory_invalid_date_is_empty_witness :
  getHistory (fun _ => None) (fun _ => None) (fun _ => 1800000000000)
    threeDays "t1" "tanks" (Some (ADate None)) None = [].
Proof.
  apply (getHistory_invalid_date_is_empty
           (fun _ => None) (fun _ => None) (fun _ => 1800000000000)
           threeDays "t1" "tanks" (Some (ADate None)) None).
  - vm_compute. reflexivity.
  - vm_compute. reflexivity.
Defined.

Lemma getHistory_newest_first_witness :
  StronglySorted (notOlder (fun _ => None))
    (getHistory (fun _ => None) (fun _ => None) (fun _ => 1800000000000)
       threeDays "t1" "tanks" None None).
Proof.
  apply (getHistory_newest_first
           (fun _ => None) (fun _ => None) (fun _ => 1800000000000)
           threeDays "t1" "tanks" None None).
  vm_compute. reflexivity.
Defined.

(** ** The export *)



Section CsvFacts.
Variable StringToNumber : string -> option Q.
Variable toLocaleDateString toLocaleTimeString toLocaleString
  : value -> string.






Lemma numeric_ne (d c : ascii) :
  numeric d = true -> numeric c = false -> Ascii.eqb d c = false.
Proof.
  intros Hd Hc. destruct (Ascii.eqb_spec d c); [|done]. congruence.
Qed.

Lemma pretty_N_go_numeric (c : ascii) (x : N) (s : string) :
  numeric c = false ->
  Text.contains c s = false ->
  Text.contains c (pretty_N_go x s) = false.
Proof.
  intros Hc. revert s. induction (N.lt_wf_0 x) as [x _ IH]; intros s Hs.
  assert (x = 0 \/ 0 < x)%N as [->|Hpos] by lia.
  - by rewrite pretty_N_go_0.
  - rewrite pretty_N_go_step by done. apply IH.
    + by apply N.div_lt.
    + cbn [Text.contains]. rewrite Hs, orb_false_r.
      apply numeric_ne; [|done].
      unfold pretty_N_char. by repeat case_match.
Qed.

Lemma pretty_Z_numeric (c : ascii) (z : Z) :
  numeric c = false -> Text.contains c (pretty z) = false.
Proof.
  intros Hc.
  assert (forall p : positive,
            Text.contains c (pretty (Npos p)) = false) as Hpos.
  { intros p. unfold pretty, pretty_N. case_decide; [done|].
    by apply pretty_N_go_numeric. }
  destruct z as [|p|p].
  - change (pretty 0) with "0". cbn [Text.contains].
    rewrite orb_false_r. by apply numeric_ne.
  - apply Hpos.
  - unfold pretty, pretty_Z. rewrite contains_append.
    unfold pretty, pretty_positive. rewrite Hpos, orb_false_r.
    cbn [Text.contains]. rewrite orb_false_r. by apply numeric_ne.
Qed.

Lemma zeros_numeric (c : ascii) (n : nat) :
  numeric c = false -> Text.contains c (Text.zeros n) = false.
Proof.
  intros Hc. induction n as [|n IH]; [done|].
  cbn [Text.zeros Text.contains]. rewrite IH, orb_false_r.
  by apply numeric_ne.
Qed.

Lemma toFixed_numeric (c : ascii) (x : Q) (f : nat) :
  numeric c = false -> Text.contains c (Text.toFixed x f) = false.
Proof.
  intros Hc. unfold Text.toFixed. rewrite !contains_append.
  rewrite pretty_Z_numeric by done.
  assert (Text.contains c (if Qnum x <? 0 then "-" else EmptyString)
          = false) as ->.
  { destruct (Qnum x <? 0); [|done].
    cbn [Text.contains]. rewrite orb_false_r. by apply numeric_ne. }
  destruct f as [|f]; [done|].
  cbn [Text.contains orb]. unfold Text.pad0.
  rewrite contains_append, zeros_numeric, pretty_Z_numeric by done.
  rewrite orb_false_r. by apply numeric_ne.
Qed.

(** X17: a numeric field of the export holds no comma, no double quote
    and no line feed, whatever the entry holds: it cannot break the line
    it is written in. *)
Theorem safeNumber_keeps_the_line (v : option value) (decimals : nat) :
  Text.contains comma (safeNumber StringToNumber v decimals) = false
  /\ Text.contains Text.dquote (safeNumber StringToNumber v decimals)
     = false
  /\ Text.contains lineFeed (safeNumber StringToNumber v decimals) = false.
Proof.
  assert (forall c, numeric c = false ->
            Text.contains c (safeNumber StringToNumber v decimals) = false)
    as Hplain.
  { intros c Hc. unfold safeNumber.
    destruct v as [[]|]; try done;
      (destruct (toNumber _ _); [by apply toFixed_numeric|done]). }
  repeat split; by apply Hplain.
Qed.

End CsvFacts.

(** ** The models *)

Lemma lookup_object (k : string) (props : list (string * option value)) :
  Models.object props !! k = propOf k props None.
Proof.
  unfold Models.object.
  assert (forall o : obj,
            foldl (fun o kv => setProp kv.1 kv.2 o) o props !! k
            = propOf k props (o !! k)) as Hfold.
  { induction props as [|[k' v] props IH]; intros o; [done|].
    cbn [foldl propOf fst snd]. rewrite IH, lookup_setProp.
    destruct (String.eqb_spec k' k); case_decide; congruence. }
  by rewrite Hfold, lookup_empty.
Qed.

Ltac fields :=
  repeat first
    [ rewrite lookup_object
    | rewrite lookup_setProp_eq
    | rewrite lookup_setProp_ne by done ];
  cbn [propOf String.eqb Ascii.eqb Bool.eqb].

Lemma numOr_Some (x : option Q) (d : Q) :
  Num.eqb d 0 = false ->
  numOr (Some (numOr x d)) d = numOr x d.
Proof.
  intros Hd. pose proof (numOr_nonzero x d Hd) as Hx.
  unfold numOr at 1. by rewrite Hx.
Qed.

Lemma or_else_idem (a b : option value) : a ||| b ||| b = a ||| b.
Proof.
  unfold or_else. destruct (truthy a) eqn:Ha; [by rewrite Ha|].
  by destruct (truthy b).
Qed.

Section TankFacts.
Variable parseFloatText : string -> option Q.
Variable StringToNumber : string -> option Q.

Lemma Tank_new_lookup (now : Z) (data : obj) (k : string) :
  k <> "connectedMainValves" ->
  Models.Tank.new parseFloatText now data !! k
  = propOf k (Models.Tank.assigned parseFloatText now data) None.
Proof.
  intros Hk. unfold Models.Tank.new. rewrite <- lookup_object.
  destruct (_ !! "connectedMainValves") as [[]|];
    by rewrite ?lookup_setProp_ne by done.
Qed.

Ltac tank_fields :=
  rewrite ?Tank_new_lookup by done;
  unfold Models.Tank.assigned;
  cbn [propOf String.eqb Ascii.eqb Bool.eqb].

Lemma div_nonzero (x : Q) (y : option Q) (d : Q) :
  Num.eqb d 0 = false -> is_Some (Num.div x (numOr y d)).
Proof.
  intros Hd. unfold Num.div. by rewrite numOr_nonzero.
Qed.

(** X18: a tank as its constructor builds it has a current volume and a
    maximal capacity that are numbers, whatever the data it is built from:
    no computation meets [NaN] or divides by zero, every dimension being a
    number that is not zero.  The numbers [parseFloat] reads are taken to
    be finite. *)
Theorem Tank_new_volumes_are_finite (now : Z) (data : obj) :
  is_Some
    (Models.Tank.calculateCurrentVolume StringToNumber
       (Models.Tank.new parseFloatText now data))
  /\ exists capacity,
       Models.Tank.calculateMaxCapacity StringToNumber
         (Models.Tank.new parseFloatText now data)
       = Some (VNum capacity).
Proof.
  unfold Models.Tank.calculateCurrentVolume,
    Models.Tank.calculateMaxCapacity, Models.Tank.number.
  tank_fields. cbn [toNumber num Models.divN Models.mulN].
  destruct (div_nonzero
              (numOr (Models.parseFloat parseFloatText
                        (data !! "waterLevel")) (17 # 2))
              (Models.parseFloat parseFloatText (data !! "height")) 10
              eq_refl) as [ratio ->].
  assert (forall x, Num.div x 2 = Some (Qred (x / 2))) as Hhalf by done.
  rewrite !Hhalf. cbn [Models.mulN fmap option_fmap option_map].
  split; repeat case_match; by eexists.
Qed.

(** X19: for a tank as its constructor builds it, the water level the
    model computes from a distance is the one a synchronisation computes
    for the geometry of the tank. *)
Theorem Tank_new_waterLevel_agrees (now : Z) (data : obj) (distance : Q) :
  Models.Tank.calculateWaterLevelFromDistance StringToNumber
    (Models.Tank.new parseFloatText now data) (Some distance)
  = num (waterLevelOf
           (geometryOf StringToNumber
              (Models.Tank.new parseFloatText now data))
           distance).
Proof.
  unfold Models.Tank.calculateWaterLevelFromDistance, waterLevelOf,
    geometryOf.
  cbn [Tank.sensorHeight Tank.height].
  tank_fields. cbn [toNumber num].
  set (height := numOr (Models.parseFloat parseFloatText (data !! "height"))
                   10).
  assert (Num.eqb height 0 = false) as Hheight by by apply numOr_nonzero.
  set (sensorHeight :=
         numOr (Models.parseFloat parseFloatText (data !! "sensorHeight"))
           height).
  assert (Num.eqb sensorHeight 0 = false) as Hsensor
    by by apply numOr_nonzero.
  unfold num.
  rewrite or_else_truthy by (cbn [truthy]; by rewrite Hsensor).
  cbn [toNumber Models.maxN Models.minN subN fmap option_fmap option_map].
  assert (numOr (Some sensorHeight) (numOr (Some height) 10) = sensorHeight)
    as ->; [|done].
  unfold numOr at 1. by rewrite Hsensor.
Qed.

Lemma isString_shape (this : obj) (shape : string) :
  Models.isString (this !! "shape") shape
  = bool_decide
      (Tank.shape (geometryOf StringToNumber this) = Some shape).
Proof.
  unfold geometryOf, Models.isString. cbn [Tank.shape].
  destruct (this !! "shape") as [[| | |s| |]|];
    try by rewrite bool_decide_eq_false_2.
  destruct (String.eqb_spec s shape) as [->|Hne].
  - by rewrite bool_decide_eq_true_2.
  - rewrite bool_decide_eq_false_2; [done|]. congruence.
Qed.

(** X20: the volume a synchronisation stores is in litres and the one the
    model computes in cubic metres: for a tank as its constructor builds
    it, at any water level, the volume of the synchronisation before
    rounding is 1000 times that of the model when the shape is a cylinder
    or a cuboid, and the same number for any other shape. *)
Theorem Tank_new_volume_agrees (now now' : Z) (data : obj) (level : Q) :
  let this :=
    Models.Tank.setWaterLevel parseFloatText now'
      (Models.Tank.new parseFloatText now data) (num level) in
  volumeOf (geometryOf StringToNumber this) level
  = if Models.isString (this !! "shape") "cylinder"
       || Models.isString (this !! "shape") "cuboid"
    then (fun volume => Num.mul volume 1000)
           <$> Models.Tank.calculateCurrentVolume StringToNumber this
    else Models.Tank.calculateCurrentVolume StringToNumber this.
Proof.
  cbv zeta. unfold volumeOf, Models.Tank.calculateCurrentVolume.
  rewrite <- !isString_shape.
  set (this := Models.Tank.setWaterLevel _ _ _ _).
  unfold geometryOf, Models.Tank.number.
  cbn [Tank.diameter Tank.length Tank.breadth Tank.height Tank.capacity].
  assert (forall k, k <> "waterLevel" -> k <> "lastUpdate" ->
            this !! k = Models.Tank.new parseFloatText now data !! k)
    as Hkept.
  { intros k Hlevel Hupdate. unfold this, Models.Tank.setWaterLevel.
    by rewrite !lookup_setProp_ne by done. }
  assert (this !! "waterLevel" = num level) as ->.
  { unfold this, Models.Tank.setWaterLevel.
    rewrite lookup_setProp_ne by done. by rewrite lookup_setProp_eq. }
  rewrite !Hkept by done. tank_fields. unfold num. cbn [toNumber].
  set (diameter := numOr _ 10). set (length := numOr _ 10).
  set (breadth := numOr _ 10). set (capacity := numOr _ 20000).
  assert (forall x d, Num.eqb d 0 = false -> numTruthy (Some (numOr x d)) = true)
    as Htruthy.
  { intros x d Hd. cbn [numTruthy]. by rewrite numOr_nonzero. }
  unfold diameter at 1, length at 1, breadth at 1.
  rewrite !Htruthy by done. rewrite !andb_true_r.
  unfold capacity at 1. rewrite !numOr_Some by done.
  fold diameter length breadth capacity.
  destruct (Models.isString _ "cylinder"); [done|].
  destruct (Models.isString _ "cuboid"); [done|].
  cbn [orb Models.divN Models.mulN default].
  by destruct (Num.div level _).
Qed.

Lemma Tank_toFirebase_lookup (this : obj) (k : string) :
  k <> "diameter" -> k <> "length" -> k <> "breadth" ->
  Models.Tank.toFirebase this !! k
  = propOf k
      [ ("id", this !! "id");
        ("name", this !! "name");
        ("lat", this !! "lat");
        ("lng", this !! "lng");
        ("type", this !! "type");
        ("capacity", this !! "capacity");
        ("waterLevel", this !! "waterLevel");
        ("shape", this !! "shape");
        ("height", this !! "height");
        ("state", this !! "state");
        ("district", this !! "district");
        ("mandal", this !! "mandal");
        ("habitation", this !! "habitation");
        ("connectedMainValves", this !! "connectedMainValves");
        ("deviceId", this !! "deviceId");
        ("sensorHeight", this !! "sensorHeight");
        ("status", this !! "status");
        ("pressure", this !! "pressure");
        ("flowRate", this !! "flowRate");
        ("pH", this !! "pH");
        ("temperature", this !! "temperature");
        ("lastUpdate", this !! "lastUpdate") ]
      None.
Proof.
  intros Hdiameter Hlength Hbreadth. unfold Models.Tank.toFirebase.
  rewrite <- lookup_object.
  repeat case_match; by rewrite ?lookup_setProp_ne by done.
Qed.

Lemma Tank_toFirebase_diameter (this : obj) :
  Models.isString (this !! "shape") "cylinder" = true ->
  Models.Tank.toFirebase this !! "diameter" = this !! "diameter".
Proof.
  intros Hshape. unfold Models.Tank.toFirebase. rewrite Hshape.
  assert (Models.isString (this !! "shape") "cuboid" = false) as ->.
  { unfold Models.isString in *.
    destruct (this !! "shape") as [[| | |s| |]|]; try done.
    apply String.eqb_eq in Hshape as ->. done. }
  cbn [andb]. case_bool_decide as Hsome.
  - by rewrite lookup_setProp_eq.
  - fields. symmetry. by apply eq_None_not_Some.
Qed.

Lemma Tank_toFirebase_sides (this : obj) :
  Models.isString (this !! "shape") "cuboid" = true ->
  Models.Tank.toFirebase this !! "length" = this !! "length"
  /\ Models.Tank.toFirebase this !! "breadth" = this !! "breadth".
Proof.
  intros Hshape. unfold Models.Tank.toFirebase. rewrite Hshape.
  assert (Models.isString (this !! "shape") "cylinder" = false) as ->.
  { unfold Models.isString in *.
    destruct (this !! "shape") as [[| | |s| |]|]; try done.
    apply String.eqb_eq in Hshape as ->. done. }
  cbn [andb].
  case_bool_decide as Hlength; case_bool_decide as Hbreadth;
    (split; fields; try done; symmetry; by apply eq_None_not_Some).
Qed.

Lemma or_else_kept (a b c : option value) :
  truthy b = true -> a ||| b ||| c = a ||| b.
Proof.
  intros Hb. apply or_else_truthy. unfold or_else.
  by destruct (truthy a) eqn:Ha.
Qed.

Lemma truthy_now (now : Z) : now <> 0 -> truthy (num (Num.of_Z now)) = true.
Proof.
  intros Hnow. cbn [truthy num]. change 0%Q with (Num.of_Z 0).
  rewrite NumFacts.eqb_of_Z. by apply negb_true_iff, Z.eqb_neq.
Qed.

Lemma parseFloat_number (x : option Q) :
  Models.parseFloat parseFloatText (VNum <$> x) = x.
Proof. by destruct x. Qed.

(** The array of the valves a tank is built with. *)
Lemma Tank_new_valves (now : Z) (data : obj) :
  Models.Tank.new parseFloatText now data !! "connectedMainValves"
  = match data !! "connectedMainValves" with
    | Some (VArr items) => Some (VArr items)
    | _ => Some (VArr [])
    end.
Proof.
  unfold Models.Tank.new.
  assert (Models.object (Models.Tank.assigned parseFloatText now data)
            !! "connectedMainValves"
          = data !! "connectedMainValves" ||| Some (VArr [])) as Hvalves.
  { unfold Models.Tank.assigned. by fields. }
  rewrite Hvalves. unfold or_else.
  destruct (data !! "connectedMainValves") as [[|[]|x|[|c s]|items|props]|];
    cbn [truthy]; rewrite ?lookup_setProp_eq; try done.
  destruct (negb _) eqn:Hx; [by rewrite lookup_setProp_eq|].
  rewrite Hvalves. unfold or_else. cbn [truthy]. by rewrite Hx.
Qed.

Ltac loaded_fields :=
  rewrite ?Tank_toFirebase_lookup by done;
  cbn [propOf String.eqb Ascii.eqb Bool.eqb];
  tank_fields.

Ltac same_field :=
  first
    [ done
    | apply or_else_idem
    | by rewrite parseFloat_number
    | unfold num; cbn [Models.parseFloat];
      by rewrite !numOr_Some by first [done|by apply numOr_nonzero]
    | apply or_else_kept; by repeat case_match
    | apply or_else_kept; by apply truthy_now ].

(** X21: a tank written by [toFirebase] and built again from what was
    written is the tank it was, but for the dimensions its shape does not
    use, which [toFirebase] leaves out: every other property is the same,
    and so are the current volume and the maximal capacity.  The clock of
    the first construction is taken not to read 0. *)
Theorem Tank_toFirebase_round_trip (now now' : Z) (data : obj) :
  now <> 0 ->
  let this := Models.Tank.new parseFloatText now data in
  let loaded :=
    Models.Tank.new parseFloatText now' (Models.Tank.toFirebase this) in
  (forall k, k <> "diameter" -> k <> "length" -> k <> "breadth" ->
     loaded !! k = this !! k)
  /\ Models.Tank.calculateCurrentVolume StringToNumber loaded
     = Models.Tank.calculateCurrentVolume StringToNumber this
  /\ Models.Tank.calculateMaxCapacity StringToNumber loaded
     = Models.Tank.calculateMaxCapacity StringToNumber this.
Proof.
  intros Hnow this loaded.
  assert (forall k, k <> "diameter" -> k <> "length" -> k <> "breadth" ->
            loaded !! k = this !! k) as Hkept.
  { intros k Hdiameter Hlength Hbreadth.
    destruct (decide (k = "connectedMainValves")) as [->|Hvalves].
    - unfold loaded. rewrite Tank_new_valves.
      rewrite Tank_toFirebase_lookup by done.
      cbn [propOf String.eqb Ascii.eqb Bool.eqb].
      unfold this. rewrite Tank_new_valves.
      by destruct (data !! "connectedMainValves") as [[]|].
    - unfold loaded, this. rewrite !Tank_new_lookup by done.
      unfold Models.Tank.assigned. cbn [propOf].
      repeat match goal with
             | |- context [String.eqb ?a k] =>
                 destruct (String.eqb_spec a k) as [<-|_]
             end;
        try done; loaded_fields; same_field. }
  split; [done|].
  assert (Models.isString (this !! "shape") "cylinder" = true ->
          loaded !! "diameter" = this !! "diameter") as Hdiameter.
  { intros Hshape. unfold loaded. rewrite Tank_new_lookup by done.
    unfold Models.Tank.assigned.
    cbn [propOf String.eqb Ascii.eqb Bool.eqb].
    rewrite Tank_toFirebase_diameter by done.
    unfold this. tank_fields. same_field. }
  assert (Models.isString (this !! "shape") "cuboid" = true ->
          loaded !! "length" = this !! "length"
          /\ loaded !! "breadth" = this !! "breadth") as Hsides.
  { intros Hshape.
    destruct (Tank_toFirebase_sides this Hshape) as [Hlength Hbreadth].
    unfold loaded. rewrite !Tank_new_lookup by done.
    unfold Models.Tank.assigned.
    cbn [propOf String.eqb Ascii.eqb Bool.eqb].
    rewrite Hlength, Hbreadth.
    unfold this. tank_fields. split; same_field. }
  unfold Models.Tank.calculateCurrentVolume,
    Models.Tank.calculateMaxCapacity, Models.Tank.number.
  rewrite !(Hkept "shape"), !(Hkept "waterLevel"), !(Hkept "height"),
    !(Hkept "capacity") by done.
  destruct (Models.isString (this !! "shape") "cylinder").
  { by rewrite Hdiameter. }
  destruct (Models.isString (this !! "shape") "cuboid"); [|done].
  destruct Hsides as [-> ->]; done.
Qed.

End TankFacts.

Lemma Tank_toFirebase_round_trip_witness :
  let this := Models.Tank.new (fun _ => None) 1800000000000 ∅ in
  let loaded :=
    Models.Tank.new (fun _ => None) 1900000000000
      (Models.Tank.toFirebase this) in
  (forall k, k <> "diameter" -> k <> "length" -> k <> "breadth" ->
     loaded !! k = this !! k)
  /\ Models.Tank.calculateCurrentVolume (fun _ => None) loaded
     = Models.Tank.calculateCurrentVolume (fun _ => None) this
  /\ Models.Tank.calculateMaxCapacity (fun _ => None) loaded
     = Models.Tank.calculateMaxCapacity (fun _ => None) this.
Proof.
  apply (Tank_toFirebase_round_trip
           (fun _ => None) (fun _ => None) 1800000000000 1900000000000 ∅).
  discriminate.
Defined.

Lemma truthy_text (a : ascii) (s : string) : truthy (str (String a s)) = true.
Proof. reflexivity. Qed.

Section PipelineFacts.
Variable parseFloatText : string -> option Q.

(** X25: a pipeline written by [toFirebase] and built again from what was
    written is the pipeline it was, whatever the clock and the random
    suffix of the second construction: the identifier and the name are
    kept, and the current flow, which is not written, is 0 again. *)
Theorem Pipeline_toFirebase_round_trip (now now' : nat -> Z)
    (suffix suffix' : string) (data : obj) :
  Models.Pipeline.new parseFloatText now' suffix'
    (Models.Pipeline.toFirebase
       (Models.Pipeline.new parseFloatText now suffix data))
  = Models.Pipeline.new parseFloatText now suffix data.
Proof.
  apply map_eq. intros k.
  unfold Models.Pipeline.new at 1 3. rewrite !lookup_object.
  cbn [propOf].
  repeat match goal with
         | |- context [String.eqb ?a k] =>
             destruct (String.eqb_spec a k) as [<-|_]
         end;
    try done;
    unfold Models.Pipeline.toFirebase; fields;
    unfold Models.Pipeline.new; fields;
    first
      [ done
      | apply or_else_idem
      | unfold num; cbn [Models.parseFloat]; by rewrite !numOr_Some
      | apply or_else_kept; apply truthy_text
      | idtac ].
  by destruct (data !! "active").
Qed.

End PipelineFacts.

(** ** Valves *)

Lemma pretty_N_go_cons (x : N) (a : ascii) (s : string) :
  exists a' s', pretty_N_go x (String a s) = String a' s'.
Proof.
  revert a s. induction (N.lt_wf_0 x) as [x _ IH]; intros a s.
  assert (x = 0 \/ 0 < x)%N as [->|Hpos] by lia.
  - rewrite pretty_N_go_0. by eexists _, _.
  - rewrite pretty_N_go_step by done. apply IH. by apply N.div_lt.
Qed.

Lemma pretty_Z_cons (z : Z) : exists a s, pretty z = String a s.
Proof.
  assert (forall p : positive, exists a s, pretty (Npos p) = String a s)
    as Hpos.
  { intros p. unfold pretty, pretty_N. case_decide; [done|].
    rewrite pretty_N_go_step by done. apply pretty_N_go_cons. }
  destruct z as [|p|p].
  - by exists "0"%char, EmptyString.
  - apply Hpos.
  - by exists "-"%char, (pretty (Npos p)).
Qed.

Lemma toFixed_cons (x : Q) (f : nat) :
  exists a s, Text.toFixed x f = String a s.
Proof.
  unfold Text.toFixed. destruct (Qnum x <? 0).
  - rewrite append_cons. by eexists _, _.
  - rewrite append_nil.
    destruct (pretty_Z_cons
                (Qfloor (Qabs x * inject_Z (10 ^ Z.of_nat f) + (1 # 2))
                 / 10 ^ Z.of_nat f)) as (a & s & ->).
    rewrite append_cons. by eexists _, _.
Qed.

Lemma truthy_toFixed (x : Q) (f : nat) :
  truthy (str (Text.toFixed x f)) = true.
Proof. by destruct (toFixed_cons x f) as (a & s & ->). Qed.

Lemma append_empty (s : string) : s +:+ EmptyString = s.
Proof.
  induction s as [|a s IH]; [done|]. by rewrite append_cons, IH.
Qed.

(** The integer [toFixed] writes for a number that is not negative. *)
Lemma rounded_between (x : Q) (scale lo hi : Z) :
  (0 <= x)%Q ->
  (inject_Z lo <= x * inject_Z scale)%Q ->
  (x * inject_Z scale <= inject_Z hi)%Q ->
  lo <= Qfloor (Qabs x * inject_Z scale + (1 # 2)) <= hi.
Proof.
  intros Hx Hlo Hhi. rewrite Qabs_pos by done.
  set (y := (x * inject_Z scale)%Q) in *.
  split.
  - rewrite <- (Qfloor_Z lo). apply Qfloor_resp_le.
    destruct y as [n d]. unfold Qle, Qplus, inject_Z in *. cbn in *. nia.
  - pose proof (Qfloor_le (y + (1 # 2))) as Hfloor.
    assert (inject_Z (Qfloor (y + (1 # 2))) < inject_Z (hi + 1))%Q as Hlt.
    { eapply Qle_lt_trans; [exact Hfloor|].
      destruct y as [n d]. unfold Qle, Qlt, Qplus, inject_Z in *.
      cbn in *. nia. }
    rewrite <- Zlt_Qlt in Hlt. lia.
Qed.

Lemma scaled_range (r : Q) (a b scale : Z) :
  (0 <= r)%Q -> (r < 1)%Q -> 0 <= a -> 0 <= scale ->
  (inject_Z (b * scale)
   <= (r * inject_Z a + inject_Z b) * inject_Z scale)%Q
  /\ ((r * inject_Z a + inject_Z b) * inject_Z scale
      <= inject_Z ((a + b) * scale))%Q.
Proof.
  destruct r as [n d]. unfold Qle, Qlt. cbn.
  rewrite ?Pos.mul_1_r, ?Z.mul_1_r. intros Hlo Hhi Ha Hscale. nia.
Qed.

Lemma sign_nonnegative (x : Q) : (0 <= x)%Q -> (Qnum x <? 0) = false.
Proof.
  intros Hx. apply Z.ltb_ge. destruct x as [n d]. unfold Qle in Hx.
  cbn in *. lia.
Qed.

Lemma liveBattery_range (r : Q) :
  (0 <= r)%Q -> (r < 1)%Q ->
  exists level, 70 <= level <= 100
                /\ Models.Valve.liveBattery r = pretty level.
Proof.
  intros Hlo Hhi. unfold Models.Valve.liveBattery, Text.toFixed.
  destruct (scaled_range r 30 70 1 Hlo Hhi) as [H70 H100]; [done..|].
  assert (Qeq (Num.add (Num.mul r 30) 70) (r * inject_Z 30 + inject_Z 70))
    as Hx.
  { unfold Num.add, Num.mul. by rewrite !Qred_correct. }
  rewrite <- Hx in H70, H100.
  set (x := Num.add (Num.mul r 30) 70) in *.
  assert (0 <= x)%Q as Hpos.
  { rewrite Qmult_1_r in H70. eapply Qle_trans; [|exact H70]. done. }
  exists (Qfloor (Qabs x * inject_Z (10 ^ Z.of_nat 0) + (1 # 2))).
  split.
  - by apply rounded_between.
  - rewrite sign_nonnegative by done.
    change (10 ^ Z.of_nat 0) with 1. rewrite Z.div_1_r.
    by rewrite append_nil, append_empty.
Qed.

Lemma livePressure_range (r : Q) :
  (0 <= r)%Q -> (r < 1)%Q ->
  exists tenths, 150 <= tenths <= 250
                 /\ Models.Valve.livePressure r
                    = pretty (tenths / 10) +:+ "."
                        +:+ pretty (tenths mod 10).
Proof.
  intros Hlo Hhi. unfold Models.Valve.livePressure, Text.toFixed.
  destruct (scaled_range r 10 15 10 Hlo Hhi) as [H150 H250]; [done..|].
  assert (Qeq (Num.add (Num.mul r 10) 15) (r * inject_Z 10 + inject_Z 15))
    as Hx.
  { unfold Num.add, Num.mul. by rewrite !Qred_correct. }
  rewrite <- Hx in H150, H250.
  set (x := Num.add (Num.mul r 10) 15) in *.
  assert (0 <= x)%Q as Hpos.
  { apply Qnot_lt_le. intros Hneg.
    apply (Qlt_irrefl 0). eapply Qle_lt_trans; [|exact Hneg].
    apply Qnot_lt_le. intros Hx0.
    assert (x * inject_Z 10 < 0)%Q as Hprod.
    { destruct x as [n d]. unfold Qlt in *. cbn in *. lia. }
    apply (Qlt_irrefl 0). eapply Qle_lt_trans; [|exact Hprod].
    eapply Qle_trans; [|exact H150]. done. }
  change (10 ^ Z.of_nat 1) with 10.
  set (tenths := Qfloor (Qabs x * inject_Z 10 + (1 # 2))).
  exists tenths. split; [by apply rounded_between|].
  rewrite sign_nonnegative by done.
  rewrite append_nil. f_equal. f_equal.
  assert (0 <= tenths mod 10 < 10) as Hdigit by (apply Z.mod_pos_bound; lia).
  assert (tenths mod 10 = 0 \/ tenths mod 10 = 1 \/ tenths mod 10 = 2
          \/ tenths mod 10 = 3 \/ tenths mod 10 = 4 \/ tenths mod 10 = 5
          \/ tenths mod 10 = 6 \/ tenths mod 10 = 7 \/ tenths mod 10 = 8
          \/ tenths mod 10 = 9) as Hcases by lia.
  by repeat (destruct Hcases as [->|Hcases]; [done|]); rewrite Hcases.
Qed.

Section ValveFacts.
Variable parseFloatText : string -> option Q.
Variable parseIntText : string -> option Q.

(** X22: a valve built from data whose battery is absent or falsy, a
    battery of 0 included, shows a battery drawn at random, an integer
    from 70 to 100; one whose pressure is absent or falsy shows a
    pressure drawn at random, from 15.0 to 25.0 with one decimal; and
    [generateLiveData] gives any valve such a battery and such a
    pressure.  The draws of [Math.random()] are taken to lie from 0 up
    to 1. *)
Theorem Valve_new_defaults_in_range (now : Z) (random : nat -> Q)
    (data this : obj) :
  (forall k, (0 <= random k)%Q /\ (random k < 1)%Q) ->
  (truthy (data !! "battery") = false ->
   exists level,
     70 <= level <= 100
     /\ Models.Valve.new parseFloatText parseIntText now random data
          !! "battery" = str (pretty level))
  /\ (truthy (data !! "pressure") = false ->
      exists tenths,
        150 <= tenths <= 250
        /\ Models.Valve.new parseFloatText parseIntText now random data
             !! "pressure"
           = str (pretty (tenths / 10) +:+ "." +:+ pretty (tenths mod 10)))
  /\ (exists level tenths,
        70 <= level <= 100 /\ 150 <= tenths <= 250
        /\ Models.Valve.generateLiveData now random this !! "battery"
           = str (pretty level)
        /\ Models.Valve.generateLiveData now random this !! "pressure"
           = str (pretty (tenths / 10) +:+ "." +:+ pretty (tenths mod 10))).
Proof.
  intros Hrandom. unfold Models.Valve.new. split; [|split].
  - intros Hfalsy. destruct (Hrandom O) as [Hlo Hhi].
    destruct (liveBattery_range (random O) Hlo Hhi) as (level & Hlevel & Heq).
    exists level. split; [done|]. fields.
    unfold or_else. by rewrite Hfalsy, Heq.
  - intros Hfalsy.
    set (calls := if truthy (data !! "battery") then O else 1%nat).
    destruct (Hrandom calls) as [Hlo Hhi].
    destruct (livePressure_range (random calls) Hlo Hhi)
      as (tenths & Htenths & Heq).
    exists tenths. split; [done|]. fields.
    unfold or_else. by rewrite Hfalsy, Heq.
  - destruct (Hrandom O) as [Hlo Hhi].
    destruct (liveBattery_range (random O) Hlo Hhi) as (level & Hlevel & Hb).
    destruct (Hrandom 1%nat) as [Hlo1 Hhi1].
    destruct (livePressure_range (random 1%nat) Hlo1 Hhi1)
      as (tenths & Htenths & Hp).
    exists level, tenths. split; [done|]. split; [done|].
    unfold Models.Valve.generateLiveData.
    rewrite !(lookup_setProp_ne "lastUpdate") by done.
    rewrite (lookup_setProp_ne "pressure" "battery") by done.
    rewrite !lookup_setProp_eq. by rewrite Hb, Hp.
Qed.

(** X23: for a valve whose [active] is a boolean and whose [valveState]
    is the one [toggle] gives that boolean, closed when active and open
    when not, two calls of [toggle] give the valve back. *)
Theorem Valve_toggle_twice (this : obj) (active : bool) :
  this !! "active" = Some (VBool active) ->
  this !! "valveState" = str (if active then "closed" else "open") ->
  Models.Valve.toggle (Models.Valve.toggle this) = this.
Proof.
  intros Hactive Hstate. apply map_eq. intros k.
  unfold Models.Valve.toggle.
  rewrite !(lookup_setProp_ne "valveState" "active") by done.
  rewrite !lookup_setProp_eq. rewrite Hactive. cbn [truthy].
  rewrite negb_involutive.
  destruct (decide (k = "valveState")) as [->|Hk].
  { by rewrite lookup_setProp_eq. }
  rewrite lookup_setProp_ne by done.
  destruct (decide (k = "active")) as [->|Hk'].
  { by rewrite lookup_setProp_eq. }
  by rewrite !lookup_setProp_ne by done.
Qed.

(** X24: a valve written by [toFirebase] and built again from what was
    written is the valve it was, the count of households set aside,
    whatever the clock and the draws of the second construction: a battery
    and a pressure drawn at random are kept, not drawn again.  The clock
    of the first construction is taken not to read 0. *)
Theorem Valve_toFirebase_round_trip (now now' : Z) (random random' : nat -> Q)
    (data : obj) :
  now <> 0 ->
  delete "households"
    (Models.Valve.new parseFloatText parseIntText now' random'
       (Models.Valve.toFirebase
          (Models.Valve.new parseFloatText parseIntText now random data)))
  = delete "households"
      (Models.Valve.new parseFloatText parseIntText now random data).
Proof.
  intros Hnow. apply map_eq. intros k.
  destruct (decide (k = "households")) as [->|Hk].
  { by rewrite !lookup_delete_eq. }
  rewrite !lookup_delete_ne by done.
  unfold Models.Valve.new at 1 3. rewrite !lookup_object.
  cbn [propOf].
  repeat match goal with
         | |- context [String.eqb ?a k] =>
             destruct (String.eqb_spec a k) as [<-|_]
         end;
    try done;
    unfold Models.Valve.toFirebase; fields;
    unfold Models.Valve.new; fields;
    first
      [ done
      | apply or_else_idem
      | by rewrite parseFloat_number
      | unfold num; cbn [Models.parseFloat]; by rewrite !numOr_Some
      | apply or_else_kept; apply truthy_toFixed
      | apply or_else_kept; by apply truthy_now ].
Qed.

End ValveFacts.

Lemma Valve_new_defaults_in_range_witness :
  (truthy ((∅ : obj) !! "battery") = false ->
   exists level,
     70 <= level <= 100
     /\ Models.Valve.new (fun _ => None) (fun _ => None) 1800000000000
          (fun _ => 1 # 2) ∅ !! "battery" = str (pretty level))
  /\ (truthy ((∅ : obj) !! "pressure") = false ->
      exists tenths,
        150 <= tenths <= 250
        /\ Models.Valve.new (fun _ => None) (fun _ => None) 1800000000000
             (fun _ => 1 # 2) ∅ !! "pressure"
           = str (pretty (tenths / 10) +:+ "." +:+ pretty (tenths mod 10)))
  /\ (exists level tenths,
        70 <= level <= 100 /\ 150 <= tenths <= 250
        /\ Models.Valve.generateLiveData 1800000000000 (fun _ => 1 # 2) ∅
             !! "battery" = str (pretty level)
        /\ Models.Valve.generateLiveData 1800000000000 (fun _ => 1 # 2) ∅
             !! "pressure"
           = str (pretty (tenths / 10) +:+ "." +:+ pretty (tenths mod 10))).
Proof.
  apply (Valve_new_defaults_in_range (fun _ => None) (fun _ => None)
           1800000000000 (fun _ => 1 # 2) ∅ ∅).
  intros k. split; unfold Qle, Qlt; cbn; lia.
Defined.

Lemma Valve_toggle_twice_witness :
  Models.Valve.toggle
    (Models.Valve.toggle
       (Models.Valve.new (fun _ => None) (fun _ => None) 1800000000000
          (fun _ => 1 # 2) ∅))
  = Models.Valve.new (fun _ => None) (fun _ => None) 1800000000000
      (fun _ => 1 # 2) ∅.
Proof.
  apply (Valve_toggle_twice
           (Models.Valve.new (fun _ => None) (fun _ => None) 1800000000000
              (fun _ => 1 # 2) ∅) false).
  - vm_compute. reflexivity.
  - vm_compute. reflexivity.
Defined.

Lemma Valve_toFirebase_round_trip_witness :
  delete "households"
    (Models.Valve.new (fun _ => None) (fun _ => None) 1900000000000
       (fun _ => 3 # 4)
       (Models.Valve.toFirebase
          (Models.Valve.new (fun _ => None) (fun _ => None) 1800000000000
             (fun _ => 1 # 2) ∅)))
  = delete "households"
      (Models.Valve.new (fun _ => None) (fun _ => None) 1800000000000
         (fun _ => 1 # 2) ∅).
Proof.
  apply (Valve_toFirebase_round_trip (fun _ => None) (fun _ => None)
           1800000000000 1900000000000 (fun _ => 1 # 2) (fun _ => 3 # 4) ∅).
  discriminate.
Defined.

(** ** Keys of the store *)

Lemma ofNumber_of_Z (z : Z) :
  Text.ofNumber (Num.of_Z z)
  = (if z <? 0 then "-" else EmptyString) +:+ pretty (Z.abs z).
Proof.
  unfold Text.ofNumber, Num.of_Z, inject_Z. cbn [Qnum Qden].
  rewrite Z.mod_1_r, Z.div_1_r. cbn [Text.fraction Z.eqb].
  by rewrite append_empty.
Qed.

Lemma digit_numeric (d : Z) : 0 <= d < 10 -> numeric (Text.digit d) = true.
Proof.
  intros Hd.
  assert (d = 0 \/ d = 1 \/ d = 2 \/ d = 3 \/ d = 4 \/ d = 5 \/ d = 6
          \/ d = 7 \/ d = 8 \/ d = 9) as Hcases by lia.
  by repeat (destruct Hcases as [->|Hcases]; [done|]); subst.
Qed.

Lemma fraction_numeric (c : ascii) (fuel : nat) (r d : Z) :
  numeric c = false -> 0 <= r < d ->
  Text.contains c (Text.fraction fuel r d) = false.
Proof.
  intros Hc. revert r. induction fuel as [|fuel IH]; intros r Hr; [done|].
  cbn [Text.fraction]. destruct (r =? 0); [done|].
  cbn [Text.contains]. rewrite IH, orb_false_r.
  - apply numeric_ne; [|done]. apply digit_numeric.
    split; [apply Z.div_pos; lia|]. apply Z.div_lt_upper_bound; lia.
  - apply Z.mod_pos_bound. lia.
Qed.

Lemma ofNumber_numeric (c : ascii) (x : Q) :
  numeric c = false -> Text.contains c (Text.ofNumber x) = false.
Proof.
  intros Hc. unfold Text.ofNumber. rewrite !contains_append.
  rewrite pretty_Z_numeric by done.
  assert (Text.contains c (if Qnum x <? 0 then "-" else EmptyString)
          = false) as ->.
  { destruct (Qnum x <? 0); [|done].
    cbn [Text.contains]. rewrite orb_false_r. by apply numeric_ne. }
  pose proof (fraction_numeric c 24 (Z.abs (Qnum x) mod Z.pos (Qden x))
                (Z.pos (Qden x)) Hc) as Hfrac.
  destruct (Text.fraction _ _ _) eqn:Hf; [done|].
  cbn [Text.contains orb] in *. rewrite Hfrac.
  - rewrite orb_false_r. by apply numeric_ne.
  - apply Z.mod_pos_bound. lia.
Qed.

Lemma pretty_N_go_dot_free (x : N) (s : string) :
  Text.contains Text.dot s = false ->
  Text.contains Text.dot (pretty_N_go x s) = false.
Proof.
  revert s. induction (N.lt_wf_0 x) as [x _ IH]; intros s Hs.
  assert (x = 0 \/ 0 < x)%N as [->|Hpos] by lia.
  - by rewrite pretty_N_go_0.
  - rewrite pretty_N_go_step by done. apply IH.
    + by apply N.div_lt.
    + cbn [Text.contains]. rewrite Hs, orb_false_r.
      unfold pretty_N_char. by repeat case_match.
Qed.

Lemma ofNumber_of_Z_dot_free (z : Z) :
  Text.contains Text.dot (Text.ofNumber (Num.of_Z z)) = false.
Proof.
  rewrite ofNumber_of_Z, contains_append.
  assert (forall p : positive,
            Text.contains Text.dot (pretty (Npos p)) = false) as Hpos.
  { intros p. unfold pretty, pretty_N. case_decide; [done|].
    by apply pretty_N_go_dot_free. }
  assert (Text.contains Text.dot (pretty (Z.abs z)) = false) as ->.
  { destruct (Z.abs z) as [|p|p] eqn:Hz; [done|apply Hpos|lia]. }
  by destruct (z <? 0).
Qed.

Lemma contains_replaceAll_dot (c : ascii) (s : string) :
  Ascii.eqb c underscore = false ->
  Text.contains c s = false ->
  Text.contains c (Text.replaceAll Text.dot "_" s) = false.
Proof.
  intros Hc. induction s as [|a s IH]; [done|].
  cbn [Text.contains Text.replaceAll]. intros [Ha Hs]%orb_false_iff.
  destruct (Ascii.eqb a Text.dot).
  - rewrite append_cons, append_nil. cbn [Text.contains].
    rewrite IH by done. rewrite orb_false_r.
    rewrite Ascii.eqb_sym. exact Hc.
  - cbn [Text.contains]. by rewrite Ha, IH.
Qed.

Lemma generateHistoryKey_free (c : ascii) (now : Z)
    (originalTimestamp : option Z) (distance : option Q) :
  c = Text.dot \/ numeric c = false ->
  Ascii.eqb c underscore = false ->
  Text.contains c
    (generateHistoryKey now
       ((fun z => VNum (Num.of_Z z)) <$> originalTimestamp)
       (VNum <$> distance)) = false.
Proof.
  intros Hc Hunderscore. unfold generateHistoryKey.
  rewrite !contains_append, String_distance.
  assert (exists z,
            String_ (((fun z => VNum (Num.of_Z z)) <$> originalTimestamp)
                     ||| num (Num.of_Z now))
            = Text.ofNumber (Num.of_Z z)) as [z ->].
  { unfold or_else. destruct originalTimestamp as [z|]; cbn; [|by eexists].
    destruct (negb _); by eexists. }
  cbn [Text.contains]. unfold underscore in Hunderscore.
  rewrite (Ascii.eqb_sym "_"%char c), Hunderscore.
  cbn [orb]. destruct Hc as [->|Hc].
  - by rewrite ofNumber_of_Z_dot_free, replaceAll_dot_free.
  - rewrite ofNumber_numeric by done.
    rewrite contains_replaceAll_dot; [done..|].
    by apply ofNumber_numeric.
Qed.

(** X26: a key made for an integer timestamp, or for the integer the
    clock reads when there is none, and any distance holds none of the
    characters a key of the store must not hold: no dot, no [#], no [$],
    no bracket and no slash.  The integers are below 10^21 in absolute
    value, where their text is written in positional notation. *)
Theorem generateHistoryKey_is_safe (now : Z) (originalTimestamp : option Z)
    (distance : option Q) :
  Z.abs now < 10 ^ 21 ->
  Z.abs (default 0 originalTimestamp) < 10 ^ 21 ->
  forallb
    (fun c =>
       negb (Text.contains c
               (generateHistoryKey now
                  ((fun z => VNum (Num.of_Z z)) <$> originalTimestamp)
                  (VNum <$> distance))))
    forbidden = true.
Proof.
  intros _ _. cbn [forallb forbidden].
  rewrite (generateHistoryKey_free "."%char) by (done || by left).
  rewrite !generateHistoryKey_free by (done || by right).
  done.
Qed.

Lemma generateHistoryKey_is_safe_witness :
  forallb
    (fun c =>
       negb (Text.contains c
               (generateHistoryKey 1800000000000
                  ((fun z => VNum (Num.of_Z z)) <$> Some 1700000000000)
                  (VNum <$> Some (5 # 2)%Q))))
    forbidden = true.
Proof.
  apply (generateHistoryKey_is_safe 1800000000000 (Some 1700000000000)
           (Some (5 # 2)%Q)).
  - reflexivity.
  - reflexivity.
Defined.

(** ** The accounts of a synchronisation *)

Lemma turns_count (now : nat -> Z) (existingKeys : gset string)
    (tank : option Tank.t) (total : nat) (sortedReadings : list Reading.t)
    (index : nat) :
  let '(thrown, skippedCount, saves) :=
    turns now existingKeys tank total index sortedReadings in
  (skippedCount + length saves <= length sortedReadings)%nat
  /\ (thrown = None ->
      (skippedCount + length saves)%nat = length sortedReadings
      /\ (countIf (fun r => negb (hasTimestamp r)) sortedReadings
          <= skippedCount)%nat).
Proof.
  revert index. induction sortedReadings as [|r rs IH]; intros index.
  - cbn. split; [lia|]. intros _. split; [done|]. unfold countIf. cbn. lia.
  - cbn [turns]. specialize (IH (S index)).
    assert (countIf (fun r => negb (hasTimestamp r)) (r :: rs)
            = ((if hasTimestamp r then 0 else 1)
               + countIf (fun r => negb (hasTimestamp r)) rs)%nat)
      as Hcount.
    { unfold countIf. cbn [List.filter]. by destruct (hasTimestamp r). }
    destruct (turn now existingKeys tank total index r)
      as [|historyKey historyEntry|message] eqn:Hturn.
    + destruct (turns _ _ _ _ (S index) rs) as [[thrown n] saves].
      destruct IH as [Hle Heq]. cbn [length]. split; [lia|].
      intros Hnone. destruct (Heq Hnone) as [Hsum Hskipped].
      split; [lia|]. rewrite Hcount. destruct (hasTimestamp r); lia.
    + destruct (turns _ _ _ _ (S index) rs) as [[thrown n] saves].
      destruct IH as [Hle Heq]. cbn [length]. split; [lia|].
      intros Hnone. destruct (Heq Hnone) as [Hsum Hskipped].
      split; [lia|]. rewrite Hcount.
      destruct (hasTimestamp r) eqn:Hr; [lia|].
      unfold turn in Hturn. rewrite rawTimestamp_zero, Hr in Hturn. done.
    + cbn [length]. split; [lia|]. done.
Qed.

Lemma settle_count (st : Store) (node : string)
    (saves : list (string * obj)) :
  ((settle st node saves).2 <= length saves)%nat.
Proof.
  revert st. induction saves as [|[k e] saves IH]; intros st; [done|].
  cbn [settle]. destruct (set st node k e) as [st1 fulfilled].
  specialize (IH st1). destruct (settle st1 node saves) as [st2 n].
  cbn [snd length] in *. destruct fulfilled; lia.
Qed.

(** X27: the accounts of a synchronisation: the readings counted as
    synced and as skipped are never more than the readings given; when
    the result carries an error both counts are 0; when it carries none,
    every reading without a timestamp is among the skipped, and if no
    write is rejected every reading is counted, as synced or as
    skipped. *)
Theorem sync_accounts_for_readings (now : nat -> Z) (st : Store)
    (tankId deviceType : string) (readings : list Reading.t)
    (tank : option Tank.t) :
  let result :=
    (syncDeviceReadingsToHistory now st tankId deviceType readings tank).1 in
  (synced result + skipped result <= length readings)%nat
  /\ (is_Some (error result) -> synced result = O /\ skipped result = O)
  /\ (error result = None ->
      (countIf (fun r => negb (hasTimestamp r)) readings
       <= skipped result)%nat
      /\ ((forall path, setRejects st path = false) ->
          (synced result + skipped result)%nat = length readings)).
Proof.
  cbv zeta. unfold syncDeviceReadingsToHistory.
  destruct readings as [|r rs].
  { cbn. split; [lia|]. split; [by intros [? ?]|]. intros _.
    unfold countIf. cbn. split; [lia|done]. }
  set (readings := r :: rs).
  set (keys := list_to_set _).
  pose proof (turns_count now keys tank (length (sort rawOrder readings))
                (sort rawOrder readings) O) as Hturns.
  destruct (turns _ _ _ _ _ _) as [[thrown n] saves].
  destruct Hturns as [Hle Heq].
  rewrite length_sort in Hle, Heq.
  pose proof (settle_count st (historyPath deviceType tankId) saves)
    as Hcount.
  pose proof (settle_fulfilled st (historyPath deviceType tankId) saves)
    as Hall.
  destruct (settle _ _ saves) as [st' m]. cbn [snd] in *.
  destruct thrown as [message|]; cbn [fst synced skipped error].
  - split; [lia|]. split; [done|]. done.
  - destruct (Heq eq_refl) as [Hsum Hskipped].
    split; [lia|]. split; [by intros [? ?]|]. intros _.
    split.
    + by rewrite <- (countIf_Permutation _ _ _
                       (sort_Permutation rawOrder readings)).
    + intros Hok. rewrite (Hall Hok). lia.
Qed.

(** ** Trusted timestamps *)

Section TrustedFacts.
Variable StringToNumber : string -> option Q.

(** X28: a query leaves a trusted timestamp as it is: the effective
    timestamp of an entry whose [timestamp] is a number from
    946,684,800,000 on is that number, whatever the clock reads and
    whatever the other timestamps of the entry are. *)
Theorem effective_keeps_trusted_timestamp (now : Z) (h : obj) (t : Q) :
  h !! "timestamp" = Some (VNum t) ->
  (year2000InMs <= t)%Q ->
  effective StringToNumber now h !! "timestamp" = Some (VNum t).
Proof.
  intros Hts Ht. unfold effective.
  rewrite lookup_setProp_ne by done. rewrite lookup_setProp_eq.
  assert (truthy (h !! "timestamp") = true) as Htruthy.
  { rewrite Hts. cbn [truthy]. apply negb_true_iff, not_true_iff_false.
    intros Hzero%NumFacts.eqb_eq. rewrite Hzero in Ht.
    by apply Qle_not_lt in Ht. }
  rewrite !or_else_truthy by (rewrite ?or_else_truthy by done; done).
  unfold timestampOf. rewrite Htruthy, Hts. cbn [toNumber].
  rewrite normalizeTimestamp_valid by done.
  cbn [fmap option_fmap option_map truthy toNumber ltN gtN].
  assert (Num.ltb t 946684800000 = false) as ->.
  { apply not_true_iff_false. intros Hlt%NumFacts.ltb_lt.
    by apply Qle_not_lt in Ht. }
  by repeat case_match.
Qed.

End TrustedFacts.

Lemma effective_keeps_trusted_timestamp_witness :
  effective (fun _ => None) 0
    (<[ "timestamp" := VNum 1700000000000 ]>
       {[ "originalTimestamp" := VNum 5000 ]}) !! "timestamp"
  = Some (VNum 1700000000000).
Proof.
  apply (effective_keeps_trusted_timestamp (fun _ => None) 0).
  - reflexivity.
  - unfold Qle. cbn. lia.
Defined.

(** ** From the synchronisation to the query *)

Lemma sync_store (now : nat -> Z) (st : Store) (tankId deviceType : string)
    (readings : list Reading.t) (tank : option Tank.t) :
  exists existingKeys,
    (syncDeviceReadingsToHistory now st tankId deviceType readings tank).2
    = (settle st (historyPath deviceType tankId)
         (turns now existingKeys tank (length (sort rawOrder readings)) O
            (sort rawOrder readings)).2).1.
Proof.
  unfold syncDeviceReadingsToHistory. destruct readings as [|r rs].
  { by exists ∅. }
  exists (list_to_set (existingKey <$> getHistoryRaw st tankId deviceType)).
  destruct (turns _ _ _ _ _ _) as [[thrown n] saves].
  cbn [snd]. destruct (settle _ _ saves) as [st' m].
  by destruct thrown.
Qed.

Lemma settle_from (st : Store) (node k : string) (e : obj)
    (saves : list (string * obj)) :
  data (settle st node saves).1 !! node ≫= (.!! k) = Some e ->
  (k, e) ∈ saves \/ data st !! node ≫= (.!! k) = Some e.
Proof.
  revert st. induction saves as [|[key e'] saves IH]; intros st; [by right|].
  cbn [settle].
  assert (data (set st node key e').1 !! node ≫= (.!! k) = Some e ->
          (key, e') = (k, e) \/ data st !! node ≫= (.!! k) = Some e)
    as Hset.
  { destruct (decide (key = k)) as [->|Hne].
    - unfold set. destruct (setRejects st _); [by right|].
      cbn [fst data]. rewrite lookup_insert_eq. cbn [mbind option_bind].
      rewrite lookup_insert_eq. intros [= ->]. by left.
    - rewrite set_other by done. by right. }
  destruct (set st node key e') as [st1 fulfilled]. cbn [fst] in Hset.
  specialize (IH st1).
  destruct (settle st1 node saves) as [st2 n]. cbn [fst] in *.
  intros Hk. destruct (IH Hk) as [Hin|Hst1]; [left; by right|].
  destruct (Hset Hst1) as [[= -> ->]|Hst]; [left; by left|by right].
Qed.

Lemma turns_saved_from (now : nat -> Z) (existingKeys : gset string)
    (tank : option Tank.t) (total : nat) (sortedReadings : list Reading.t)
    (index : nat) (k : string) (e : obj) :
  (k, e) ∈ (turns now existingKeys tank total index sortedReadings).2 ->
  exists i r, r ∈ sortedReadings
              /\ turn now existingKeys tank total i r = Saved k e.
Proof.
  revert index. induction sortedReadings as [|r rs IH]; intros index.
  - cbn. by intros ?%elem_of_nil.
  - cbn [turns]. specialize (IH (S index)).
    destruct (turn now existingKeys tank total index r)
      as [|historyKey historyEntry|message] eqn:Hturn.
    + destruct (turns _ _ _ _ (S index) rs) as [[thrown n] saves].
      cbn [snd] in *. intros Hin.
      destruct (IH Hin) as (i & r' & Hr' & Hsaved).
      exists i, r'. split; [by right|done].
    + destruct (turns _ _ _ _ (S index) rs) as [[thrown n] saves].
      cbn [snd] in *. intros [[= -> ->]|Hin]%elem_of_cons.
      * exists index, r. split; [by left|done].
      * destruct (IH Hin) as (i & r' & Hr' & Hsaved).
        exists i, r'. split; [by right|done].
    + cbn. by intros ?%elem_of_nil.
Qed.

Lemma originalTimestamp_withTankMetrics (tank : Tank.t) (distance : Q)
    (historyEntry : obj) :
  withTankMetrics tank distance historyEntry !! "originalTimestamp"
  = historyEntry !! "originalTimestamp".
Proof. unfold withTankMetrics. by rewrite !lookup_setProp_ne by done. Qed.

(** The entry saved for a trusted reading carries the timestamp of the
    reading as [timestamp] and as [originalTimestamp]. *)
Lemma turn_saves_trusted (now : nat -> Z) (existingKeys : gset string)
    (tank : option Tank.t) (total index : nat) (reading : Reading.t)
    (historyKey : string) (historyEntry : obj) :
  trusted reading = true ->
  turn now existingKeys tank total index reading
  = Saved historyKey historyEntry ->
  exists t, (year2000InMs <= t)%Q
            /\ historyEntry !! "timestamp" = Some (VNum t)
            /\ historyEntry !! "originalTimestamp" = Some (VNum t).
Proof.
  unfold trusted. intros [Hts Horig%bool_decide_eq_true]%andb_true_iff Hturn.
  destruct (turn_saves_raw_timestamp _ _ _ _ _ _ _ _ Hturn) as [Hr Htime].
  destruct (Reading.timestamp reading) as [t|] eqn:Ht; [|done].
  apply NumFacts.leb_le in Hts.
  exists t. split; [done|]. split; [done|].
  unfold turn in Hturn. rewrite rawTimestamp_zero, Hr in Hturn.
  cbn [negb] in Hturn.
  destruct (bool_decide _); [done|].
  destruct (Date.toISOString _) as [date|]; [|done].
  injection Hturn as _ <-.
  assert (numOr (Reading.timestamp reading) 0 = t) as Hraw.
  { unfold hasTimestamp, numTruthy in Hr. rewrite Ht in Hr |- *.
    unfold numOr. apply negb_true_iff in Hr. by rewrite Hr. }
  assert (Reading.props reading !! "originalTimestamp" = None) as Hprops.
  { unfold Reading.props. by rewrite !lookup_setProp_ne by done. }
  destruct tank as [tank|], (Reading.distance reading) as [distance|];
    rewrite ?originalTimestamp_withTankMetrics;
    rewrite lookup_union_r by done;
    rewrite !lookup_setProp_ne by done;
    rewrite lookup_insert_eq; by rewrite Hraw.
Qed.

Section PipelineOfHistory.
Variable StringToNumber : string -> option Q.
Variable parseDate : string -> option Q.

Lemma effective_dated (now : Z) (h : obj) (t : Q) :
  (year2000InMs <= t)%Q ->
  h !! "timestamp" = Some (VNum t) ->
  h !! "originalTimestamp" = Some (VNum t) ->
  dated StringToNumber (effective StringToNumber now h) = true.
Proof.
  intros Ht Hts Horig.
  assert (Num.eqb t 0 = false) as Hzero.
  { apply not_true_iff_false. intros Hzero%NumFacts.eqb_eq.
    rewrite Hzero in Ht. by apply Qle_not_lt in Ht. }
  assert (effective StringToNumber now h !! "timestamp" = Some (VNum t))
    as Heff.
  { unfold effective.
    rewrite lookup_setProp_ne by done. rewrite lookup_setProp_eq.
    assert (truthy (h !! "timestamp") = true) as Htruthy.
    { rewrite Hts. cbn [truthy]. by rewrite Hzero. }
    rewrite !or_else_truthy by (rewrite ?or_else_truthy by done; done).
    unfold timestampOf. rewrite Htruthy, Hts. cbn [toNumber].
    rewrite normalizeTimestamp_valid by done.
    cbn [fmap option_fmap option_map truthy toNumber ltN gtN].
    by repeat case_match. }
  unfold dated. rewrite Heff. cbn [toNumber].
  unfold effective. rewrite lookup_setProp_eq, Horig.
  rewrite !(or_else_truthy (Some (VNum t)))
    by (cbn [truthy]; by rewrite Hzero).
  cbn [toNumber ltN gtN]. apply negb_true_iff, not_true_iff_false.
  intros Hlt%NumFacts.ltb_lt.
  apply (Qlt_irrefl t). eapply Qlt_le_trans; [exact Hlt|].
  eapply Qle_trans; [|exact Ht]. done.
Qed.

(** X29: from the synchronisation to the query: on a device without
    history, after a synchronisation of readings whose timestamps are all
    numbers from 946,684,800,000 on, or absent, and which bring no
    [originalTimestamp] of their own, every query of the device answers
    the newest entry first, whatever the clocks, the tank, the dates of
    the query and the writes that fail. *)
Theorem synced_history_is_newest_first (now now' : nat -> Z) (st : Store)
    (tankId deviceType : string) (readings : list Reading.t)
    (tank : option Tank.t) (startDate endDate : option DateArg) :
  getHistoryRaw st tankId deviceType = [] ->
  forallb (fun r => negb (hasTimestamp r) || trusted r) readings = true ->
  StronglySorted (notOlder StringToNumber)
    (getHistory StringToNumber parseDate now'
       (syncDeviceReadingsToHistory now st tankId deviceType readings
          tank).2
       tankId deviceType startDate endDate).
Proof.
  intros Hempty Htrusted.
  destruct (sync_store now st tankId deviceType readings tank)
    as [existingKeys ->].
  set (node := historyPath deviceType tankId).
  set (saves := (turns _ _ _ _ _ _).2).
  unfold getHistory, get. rewrite getThrows_settle. fold node.
  destruct (getThrows st node) eqn:Hthrows; [constructor|].
  destruct (data (settle st node saves).1 !! node) as [rawData|] eqn:Hraw;
    [|constructor].
  apply sort_newestFirst_sorted, Forall_forall. intros e He.
  apply elem_of_dateFiltered in He. unfold normalized in He.
  apply elem_of_List_filter in He as [He _].
  apply elem_of_lookup_imap in He as (i & h & -> & Hh).
  apply list_elem_of_lookup_2, list_elem_of_fmap in Hh as ([k h'] & -> & Hk).
  apply elem_of_map_to_list in Hk. cbn [snd].
  assert (data (settle st node saves).1 !! node ≫= (.!! k) = Some h')
    as Hstored by by rewrite Hraw.
  apply settle_from in Hstored as [Hsaved|Hold].
  - apply turns_saved_from in Hsaved as (j & r & Hr & Hturn).
    apply elem_of_sort in Hr.
    rewrite forallb_forall in Htrusted.
    apply list_elem_of_In, Htrusted in Hr.
    destruct (turn_saves_raw_timestamp _ _ _ _ _ _ _ _ Hturn) as [Hts _].
    rewrite Hts in Hr. cbn [negb orb] in Hr.
    destruct (turn_saves_trusted _ _ _ _ _ _ _ _ Hr Hturn)
      as (t & Ht & Htime & Horig).
    by eapply effective_dated.
  - exfalso. unfold getHistoryRaw, get in Hempty. fold node in Hempty.
    rewrite Hthrows in Hempty.
    destruct (data st !! node) as [old|]; [|done].
    cbn [mbind option_bind] in Hold.
    apply elem_of_map_to_list in Hold.
    apply (list_elem_of_fmap_2 snd) in Hold. rewrite Hempty in Hold.
    by apply elem_of_nil in Hold.
Qed.

End PipelineOfHistory.

Lemma synced_history_is_newest_first_witness :
  StronglySorted (notOlder (fun _ => None))
    (getHistory (fun _ => None) (fun _ => None) (fun _ => 1900000000000)
       (syncDeviceReadingsToHistory (fun _ => 1800000000000) emptyStore
          "t1" "tanks" scenarioBatch (Some scenarioTank)).2
       "t1" "tanks" None None).
Proof.
  apply (synced_history_is_newest_first (fun _ => None) (fun _ => None)
           (fun _ => 1800000000000) (fun _ => 1900000000000) emptyStore
           "t1" "tanks" scenarioBatch (Some scenarioTank) None None).
  - reflexivity.
  - vm_compute. reflexivity.
Defined.

(** ** A tank that has been updated *)

Section UpdatedTank.
Variable parseFloatText : string -> option Q.
Variable StringToNumber : string -> option Q.


End UpdatedTank.

